(** * The resource envelope codec of the vendored goformation package

    A shallow embedding of [DeploymentGroup.MarshalJSON] and
    [DeploymentGroup.UnmarshalJSON] (package codedeploy) and of the
    property-subtype structs of packages glue, ecs and cognito, together
    with the part of Go's [encoding/json] these functions call.

    Level of the model.  JSON texts are taken after parsing, as trees
    ([json]); object members keep their order and their duplicates, since
    the decoder visits them one by one.  Go strings are byte strings
    ([string]).  A slice is its visible elements, with [None] for the nil
    slice; its capacity is not modelled.  The types that the source
    imports but does not declare here ([types.Value], the nested
    [DeploymentGroup_*] structs, the dynamic values stored in a
    [map[string]interface{}]) are parameters that come with their own
    encoder and decoder. *)

From Stdlib Require Import String Ascii NArith List.
From stdpp Require Import base option list gmap strings fin_maps sorting.

Local Open Scope string_scope.

(** ** JSON trees *)

#[warnings="-register-all"]
Inductive json : Type :=
| JNull
| JBool (b : bool)
| JNum (literal : string)
| JStr (s : string)
| JArr (elems : list json)
| JObj (members : list (string * json)).

(** The word [encoding/json] uses for the kind of a value in its
    [UnmarshalTypeError]. *)
Definition kindOf (j : json) : string :=
  match j with
  | JNull => "null"
  | JBool _ => "bool"
  | JNum _ => "number"
  | JStr _ => "string"
  | JArr _ => "array"
  | JObj _ => "object"
  end.

Definition keys (j : json) : list string :=
  match j with
  | JObj members => members.*1
  | _ => []
  end.

Definition member (k : string) (j : json) : option json :=
  match j with
  | JObj members => snd <$> List.find (fun kv => String.eqb (fst kv) k) members
  | _ => None
  end.

(** ** Errors and the two monads of the codec *)

Inductive error : Type :=
| UnknownField (key : string)
| UnmarshalTypeError (value : string) (target : string)
| MarshalerError (msg : string).

Inductive result (A : Type) : Type :=
| Ok (a : A)
| Err (e : error).
Arguments Ok {A} a.
Arguments Err {A} e.

Definition rbind {A B} (c : result A) (k : A -> result B) : result B :=
  match c with
  | Ok a => k a
  | Err e => Err e
  end.

(** The decoder of [encoding/json] keeps going after a type mismatch or
    an unknown field: it saves the error (only the first one is kept) and
    returns it at the end.  An error returned by a nested [UnmarshalJSON]
    method stops decoding at once.  A decoding step therefore either
    fails, or yields a value together with the first error it saved. *)
Definition decoder (A : Type) : Type := result (A * option error).

Definition firstError (saved later : option error) : option error :=
  match saved with
  | Some e => Some e
  | None => later
  end.

Definition dret {A} (a : A) : decoder A := Ok (a, None).

Definition dbind {A B} (c : decoder A) (k : A -> decoder B) : decoder B :=
  match c with
  | Ok (a, saved) =>
      match k a with
      | Ok (b, later) => Ok (b, firstError saved later)
      | Err e => Err e
      end
  | Err e => Err e
  end.

Definition saveError (e : error) : decoder unit := Ok (tt, Some e).

Declare Scope result_scope.
Declare Scope decoder_scope.
Delimit Scope result_scope with result.
Delimit Scope decoder_scope with decoder.

Notation "x <- c ;; k" := (rbind c (fun x => k))
  (at level 60, c at next level, right associativity) : result_scope.
Notation "x <- c ;; k" := (dbind c (fun x => k))
  (at level 60, c at next level, right associativity) : decoder_scope.
Notation "c ;;; k" := (dbind c (fun _ => k))
  (at level 60, right associativity) : decoder_scope.

(** [d.unmarshal]: the saved error, if any, is the error of the whole
    decoding. *)
Definition runDecoder {A} (c : decoder A) : result A :=
  match c with
  | Ok (a, None) => Ok a
  | Ok (_, Some e) => Err e
  | Err e => Err e
  end.

(** ** Matching a member name against the field names of a struct *)

Definition caseMask (b : ascii) : ascii :=
  ascii_of_N (N.land (N_of_ascii b) 223).

Definition isUpperLetter (b : ascii) : bool :=
  (N.leb 65 (N_of_ascii b)) && (N.leb (N_of_ascii b) 90).

Definition isASCII (b : ascii) : bool := N.ltb (N_of_ascii b) 128.

(** [equalFold name key], for a field name made of ASCII letters: equal
    up to the case of ASCII letters, where the key may also spell s as
    U+017F (bytes C5 BF) and k as U+212A (bytes E2 84 AA). *)
Fixpoint equalFold (name key : string) : bool :=
  match name with
  | EmptyString =>
      match key with
      | EmptyString => true
      | String _ _ => false
      end
  | String sb name' =>
      match key with
      | EmptyString => false
      | String tb key' =>
          if isASCII tb then
            (Ascii.eqb sb tb
             || (isUpperLetter (caseMask sb)
                 && Ascii.eqb (caseMask sb) (caseMask tb)))
            && equalFold name' key'
          else if Ascii.eqb (caseMask sb) "S" then
            match key with
            | String "197" (String "191" rest) => equalFold name' rest
            | _ => false
            end
          else if Ascii.eqb (caseMask sb) "K" then
            match key with
            | String "226" (String "132" (String "170" rest)) =>
                equalFold name' rest
            | _ => false
            end
          else false
      end
  end.

(** The field a member name selects: an exact match if there is one,
    otherwise the first field whose name matches up to case. *)
Definition findField {F} (fields : list (string * F)) (key : string) : option F :=
  match List.find (fun f => String.eqb (fst f) key) fields with
  | Some f => Some (snd f)
  | None => snd <$> List.find (fun f => equalFold (fst f) key) fields
  end.

(** ** Values with an encoder and a decoder *)

(** [zero] is the zero value of the Go type, [marshalJSON] what
    [json.Marshal] makes of a value, [unmarshalJSON j x] what the decoder
    does with the tree [j] when its target already holds [x]. *)
Class GoJSON (T : Type) : Type := {
  zero : T;
  marshalJSON : T -> result json;
  unmarshalJSON : json -> T -> decoder T
}.

Local Open Scope decoder_scope.

(** A Go [string] target: null leaves it alone, a JSON string is stored,
    anything else is a type mismatch. *)
Definition decodeString (j : json) (s : string) : decoder string :=
  match j with
  | JNull => dret s
  | JStr x => dret x
  | _ => saveError (UnmarshalTypeError (kindOf j) "string") ;;; dret s
  end.

#[export] Instance string_GoJSON : GoJSON string := {
  zero := "";
  marshalJSON s := Ok (JStr s);
  unmarshalJSON := decodeString
}.

(** A pointer target [*T]: null stores nil; otherwise a nil pointer is
    first made to point to a zero [T], and the tree is decoded into what
    the pointer points to. *)
Definition decodePtr {T} `{GoJSON T} (j : json) (p : option T) : decoder (option T) :=
  match j with
  | JNull => dret None
  | _ => x <- unmarshalJSON j (default zero p) ;; dret (Some x)
  end.

(** The elements of a JSON array decoded into a slice: element [i] is
    decoded into the [i]-th element already there, or into a zero
    element, and the slice ends up as long as the array. *)
Fixpoint decodeElems {T} `{GoJSON T} (elems : list json) (old : list T) : decoder (list T) :=
  match elems with
  | [] => dret []
  | j :: elems' =>
      x <- unmarshalJSON j (hd zero old) ;;
      xs <- decodeElems elems' (tl old) ;;
      dret (x :: xs)
  end.

(** A slice target [[]T]: null stores the nil slice, an array its
    elements (the empty array an empty slice that is not nil). *)
Definition decodeSlice {T} `{GoJSON T} (target : string) (j : json) (s : option (list T))
  : decoder (option (list T)) :=
  match j with
  | JNull => dret None
  | JArr elems => xs <- decodeElems elems (default [] s) ;; dret (Some xs)
  | _ => saveError (UnmarshalTypeError (kindOf j) target) ;;; dret s
  end.

(** Fields tagged [omitempty]. *)
Definition marshalPtr {T} `{GoJSON T} (name : string) (p : option T)
  : result (list (string * json)) :=
  match p with
  | None => Ok []
  | Some x => (j <- marshalJSON x ;; Ok [(name, j)])%result
  end.

Fixpoint marshalElems {T} `{GoJSON T} (xs : list T) : result (list json) :=
  match xs with
  | [] => Ok []
  | x :: xs' => (j <- marshalJSON x ;; js <- marshalElems xs' ;; Ok (j :: js))%result
  end.

Definition marshalSlice {T} `{GoJSON T} (name : string) (s : option (list T))
  : result (list (string * json)) :=
  match s with
  | None | Some [] => Ok []
  | Some xs => (js <- marshalElems xs ;; Ok [(name, JArr js)])%result
  end.

Definition marshalString (name : string) (s : string) : list (string * json) :=
  if String.eqb s "" then [] else [(name, JStr s)].

(** ** Structs *)

(** A JSON object decoded into a struct whose fields are listed in
    [fields]: the members are visited in order; a member that selects a
    field is decoded into it by [store]; a member that selects none is
    skipped, after saving an error when the decoder was told to
    [DisallowUnknownFields]. *)
Fixpoint decodeMembers {F S} (disallowUnknownFields : bool)
    (fields : list (string * F)) (store : F -> json -> S -> decoder S)
    (members : list (string * json)) (s : S) : decoder S :=
  match members with
  | [] => dret s
  | (key, j) :: rest =>
      match findField fields key with
      | Some f =>
          s' <- store f j s ;;
          decodeMembers disallowUnknownFields fields store rest s'
      | None =>
          (if disallowUnknownFields then saveError (UnknownField key) else dret tt) ;;;
          decodeMembers disallowUnknownFields fields store rest s
      end
  end.

(** A struct target: null leaves it alone, an object is decoded member by
    member, anything else is a type mismatch. *)
Definition decodeStruct {F S} (disallowUnknownFields : bool)
    (fields : list (string * F)) (store : F -> json -> S -> decoder S)
    (target : string) (j : json) (s : S) : decoder S :=
  match j with
  | JNull => dret s
  | JObj members => decodeMembers disallowUnknownFields fields store members s
  | _ => saveError (UnmarshalTypeError (kindOf j) target) ;;; dret s
  end.

(** A struct is encoded field by field, in the order of declaration; the
    first field that fails to encode fails the whole encoding. *)
Fixpoint marshalFields (fs : list (result (list (string * json))))
  : result (list (string * json)) :=
  match fs with
  | [] => Ok []
  | f :: fs' => (ms <- f ;; ms' <- marshalFields fs' ;; Ok (ms ++ ms')%list)%result
  end.

Definition marshalStruct (fs : list (result (list (string * json)))) : result json :=
  (ms <- marshalFields fs ;; Ok (JObj ms))%result.

(** ** Maps with dynamic values: [map[string]interface{}] *)

Section maps.
Context {any : Type}.
(** What the decoder stores in an [interface{}] for a JSON tree, and what
    the encoder makes of a dynamic value. *)
Context (valueInterface : json -> any) (marshalAny : any -> result json).

(** A map target: null stores the nil map; an object stores its members
    one by one into the map already there (a new one if it was nil). *)
Definition decodeMap (j : json) (m : option (gmap string any))
  : decoder (option (gmap string any)) :=
  match j with
  | JNull => dret None
  | JObj members =>
      dret (Some (fold_left (fun acc kv => <[fst kv := valueInterface (snd kv)]> acc)
                            members (default ∅ m)))
  | _ => saveError (UnmarshalTypeError (kindOf j) "map[string]interface {}") ;;; dret m
  end.

Definition keyLe (a b : string * any) : Prop := String.leb (fst a) (fst b) = true.

#[local] Instance keyLe_dec : RelDecision keyLe.
Proof. intros a b. unfold keyLe. apply _. Defined.

(** The encoder writes the entries of a map sorted by key. *)
Definition sortedEntries (m : gmap string any) : list (string * any) :=
  merge_sort keyLe (map_to_list m).

Fixpoint marshalEntries (kvs : list (string * any)) : result (list (string * json)) :=
  match kvs with
  | [] => Ok []
  | (k, v) :: kvs' =>
      (j <- marshalAny v ;; js <- marshalEntries kvs' ;; Ok ((k, j) :: js))%result
  end.

(** A map field tagged [omitempty]: left out when nil or empty. *)
Definition marshalMap (name : string) (m : option (gmap string any))
  : result (list (string * json)) :=
  match m with
  | None => Ok []
  | Some m =>
      match sortedEntries m with
      | [] => Ok []
      | kvs => (js <- marshalEntries kvs ;; Ok [(name, JObj js)])%result
      end
  end.

End maps.

(** ** Round trips of the nested values

    A value round-trips when the decoder, given what the encoder made of
    it and a zero target, stores the value again. *)
Definition roundtrips {T} `{GoJSON T} (x : T) : Prop :=
  forall j, marshalJSON x = Ok j -> unmarshalJSON j zero = Ok (x, None).

(** Behind a pointer the encoding must moreover not be null, which the
    decoder reads as the nil pointer. *)
Definition ptrRoundtrips {T} `{GoJSON T} (p : option T) : Prop :=
  forall x, p = Some x -> roundtrips x /\ marshalJSON x <> Ok JNull.

Definition sliceRoundtrips {T} `{GoJSON T} (s : option (list T)) : Prop :=
  forall xs, s = Some xs -> Forall roundtrips xs.




Definition emptySlice {A} (s : option (list A)) : bool :=
  match s with
  | None | Some [] => true
  | Some (_ :: _) => false
  end.

Definition emptyMap {any} (m : option (gmap string any)) : bool :=
  match m with
  | None => true
  | Some m => Nat.eqb (size m) 0
  end.

(** An empty slice or map is left out by the encoder and comes back as
    nil. *)
Definition normSlice {A} (s : option (list A)) : option (list A) :=
  if emptySlice s then None else s.

Definition normMap {any} (m : option (gmap string any)) : option (gmap string any) :=
  if emptyMap m then None else m.

(** ** Package codedeploy: the resource DeploymentGroup *)

Module codedeploy.
Section DeploymentGroup.

(** [types.Value], the nested property types and the dynamic values of
    the metadata map are declared outside the files at hand. *)
Context {Value : Type} `{!GoJSON Value}.
Context {DeploymentGroup_AlarmConfiguration : Type}
        `{!GoJSON DeploymentGroup_AlarmConfiguration}.
Context {DeploymentGroup_AutoRollbackConfiguration : Type}
        `{!GoJSON DeploymentGroup_AutoRollbackConfiguration}.
Context {DeploymentGroup_BlueGreenDeploymentConfiguration : Type}
        `{!GoJSON DeploymentGroup_BlueGreenDeploymentConfiguration}.
Context {DeploymentGroup_Deployment : Type}
        `{!GoJSON DeploymentGroup_Deployment}.
Context {DeploymentGroup_DeploymentStyle : Type}
        `{!GoJSON DeploymentGroup_DeploymentStyle}.
Context {DeploymentGroup_ECSService : Type}
        `{!GoJSON DeploymentGroup_ECSService}.
Context {DeploymentGroup_EC2TagFilter : Type}
        `{!GoJSON DeploymentGroup_EC2TagFilter}.
Context {DeploymentGroup_EC2TagSet : Type}
        `{!GoJSON DeploymentGroup_EC2TagSet}.
Context {DeploymentGroup_LoadBalancerInfo : Type}
        `{!GoJSON DeploymentGroup_LoadBalancerInfo}.
Context {DeploymentGroup_TagFilter : Type}
        `{!GoJSON DeploymentGroup_TagFilter}.
Context {DeploymentGroup_OnPremisesTagSet : Type}
        `{!GoJSON DeploymentGroup_OnPremisesTagSet}.
Context {DeploymentGroup_TriggerConfig : Type}
        `{!GoJSON DeploymentGroup_TriggerConfig}.
Context {any : Type} (valueInterface : json -> any)
        (marshalAny : any -> result json).

(** The struct.  [policies.DeletionPolicy] and
    [policies.UpdateReplacePolicy] are string types: the source converts
    a [string] to them. *)
Record DeploymentGroup : Type := {
  AlarmConfiguration : option DeploymentGroup_AlarmConfiguration;
  ApplicationName : option Value;
  AutoRollbackConfiguration : option DeploymentGroup_AutoRollbackConfiguration;
  AutoScalingGroups : option Value;
  BlueGreenDeploymentConfiguration : option DeploymentGroup_BlueGreenDeploymentConfiguration;
  Deployment : option DeploymentGroup_Deployment;
  DeploymentConfigName : option Value;
  DeploymentGroupName : option Value;
  DeploymentStyle : option DeploymentGroup_DeploymentStyle;
  ECSServices : option (list DeploymentGroup_ECSService);
  Ec2TagFilters : option (list DeploymentGroup_EC2TagFilter);
  Ec2TagSet : option DeploymentGroup_EC2TagSet;
  LoadBalancerInfo : option DeploymentGroup_LoadBalancerInfo;
  OnPremisesInstanceTagFilters : option (list DeploymentGroup_TagFilter);
  OnPremisesTagSet : option DeploymentGroup_OnPremisesTagSet;
  ServiceRoleArn : option Value;
  TriggerConfigurations : option (list DeploymentGroup_TriggerConfig);
  AWSCloudFormationDeletionPolicy : string;
  AWSCloudFormationUpdateReplacePolicy : string;
  AWSCloudFormationDependsOn : option (list string);
  AWSCloudFormationMetadata : option (gmap string any);
  AWSCloudFormationCondition : string
}.

Definition set_AlarmConfiguration (v : option DeploymentGroup_AlarmConfiguration) (r : DeploymentGroup)
  : DeploymentGroup :=
  let '(Build_DeploymentGroup _ a2 a3 a4 a5 a6 a7 a8 a9 a10 a11 a12 a13
    a14 a15 a16 a17 a18 a19 a20 a21 a22) := r in
  Build_DeploymentGroup v a2 a3 a4 a5 a6 a7 a8 a9 a10 a11 a12 a13 a14 a15
    a16 a17 a18 a19 a20 a21 a22.

Definition set_ApplicationName (v : option Value) (r : DeploymentGroup)
  : DeploymentGroup :=
  let '(Build_DeploymentGroup a1 _ a3 a4 a5 a6 a7 a8 a9 a10 a11 a12 a13
    a14 a15 a16 a17 a18 a19 a20 a21 a22) := r in
  Build_DeploymentGroup a1 v a3 a4 a5 a6 a7 a8 a9 a10 a11 a12 a13 a14 a15
    a16 a17 a18 a19 a20 a21 a22.

Definition set_AutoRollbackConfiguration (v : option DeploymentGroup_AutoRollbackConfiguration) (r : DeploymentGroup)
  : DeploymentGroup :=
  let '(Build_DeploymentGroup a1 a2 _ a4 a5 a6 a7 a8 a9 a10 a11 a12 a13
    a14 a15 a16 a17 a18 a19 a20 a21 a22) := r in
  Build_DeploymentGroup a1 a2 v a4 a5 a6 a7 a8 a9 a10 a11 a12 a13 a14 a15
    a16 a17 a18 a19 a20 a21 a22.

Definition set_AutoScalingGroups (v : option Value) (r : DeploymentGroup)
  : DeploymentGroup :=
  let '(Build_DeploymentGroup a1 a2 a3 _ a5 a6 a7 a8 a9 a10 a11 a12 a13
    a14 a15 a16 a17 a18 a19 a20 a21 a22) := r in
  Build_DeploymentGroup a1 a2 a3 v a5 a6 a7 a8 a9 a10 a11 a12 a13 a14 a15
    a16 a17 a18 a19 a20 a21 a22.

Definition set_BlueGreenDeploymentConfiguration (v : option DeploymentGroup_BlueGreenDeploymentConfiguration) (r : DeploymentGroup)
  : DeploymentGroup :=
  let '(Build_DeploymentGroup a1 a2 a3 a4 _ a6 a7 a8 a9 a10 a11 a12 a13
    a14 a15 a16 a17 a18 a19 a20 a21 a22) := r in
  Build_DeploymentGroup a1 a2 a3 a4 v a6 a7 a8 a9 a10 a11 a12 a13 a14 a15
    a16 a17 a18 a19 a20 a21 a22.

Definition set_Deployment (v : option DeploymentGroup_Deployment) (r : DeploymentGroup)
  : DeploymentGroup :=
  let '(Build_DeploymentGroup a1 a2 a3 a4 a5 _ a7 a8 a9 a10 a11 a12 a13
    a14 a15 a16 a17 a18 a19 a20 a21 a22) := r in
  Build_DeploymentGroup a1 a2 a3 a4 a5 v a7 a8 a9 a10 a11 a12 a13 a14 a15
    a16 a17 a18 a19 a20 a21 a22.

Definition set_DeploymentConfigName (v : option Value) (r : DeploymentGroup)
  : DeploymentGroup :=
  let '(Build_DeploymentGroup a1 a2 a3 a4 a5 a6 _ a8 a9 a10 a11 a12 a13
    a14 a15 a16 a17 a18 a19 a20 a21 a22) := r in
  Build_DeploymentGroup a1 a2 a3 a4 a5 a6 v a8 a9 a10 a11 a12 a13 a14 a15
    a16 a17 a18 a19 a20 a21 a22.

Definition set_DeploymentGroupName (v : option Value) (r : DeploymentGroup)
  : DeploymentGroup :=
  let '(Build_DeploymentGroup a1 a2 a3 a4 a5 a6 a7 _ a9 a10 a11 a12 a13
    a14 a15 a16 a17 a18 a19 a20 a21 a22) := r in
  Build_DeploymentGroup a1 a2 a3 a4 a5 a6 a7 v a9 a10 a11 a12 a13 a14 a15
    a16 a17 a18 a19 a20 a21 a22.

Definition set_DeploymentStyle (v : option DeploymentGroup_DeploymentStyle) (r : DeploymentGroup)
  : DeploymentGroup :=
  let '(Build_DeploymentGroup a1 a2 a3 a4 a5 a6 a7 a8 _ a10 a11 a12 a13
    a14 a15 a16 a17 a18 a19 a20 a21 a22) := r in
  Build_DeploymentGroup a1 a2 a3 a4 a5 a6 a7 a8 v a10 a11 a12 a13 a14 a15
    a16 a17 a18 a19 a20 a21 a22.

Definition set_ECSServices (v : option (list DeploymentGroup_ECSService)) (r : DeploymentGroup)
  : DeploymentGroup :=
  let '(Build_DeploymentGroup a1 a2 a3 a4 a5 a6 a7 a8 a9 _ a11 a12 a13 a14
    a15 a16 a17 a18 a19 a20 a21 a22) := r in
  Build_DeploymentGroup a1 a2 a3 a4 a5 a6 a7 a8 a9 v a11 a12 a13 a14 a15
    a16 a17 a18 a19 a20 a21 a22.

Definition set_Ec2TagFilters (v : option (list DeploymentGroup_EC2TagFilter)) (r : DeploymentGroup)
  : DeploymentGroup :=
  let '(Build_DeploymentGroup a1 a2 a3 a4 a5 a6 a7 a8 a9 a10 _ a12 a13 a14
    a15 a16 a17 a18 a19 a20 a21 a22) := r in
  Build_DeploymentGroup a1 a2 a3 a4 a5 a6 a7 a8 a9 a10 v a12 a13 a14 a15
    a16 a17 a18 a19 a20 a21 a22.

Definition set_Ec2TagSet (v : option DeploymentGroup_EC2TagSet) (r : DeploymentGroup)
  : DeploymentGroup :=
  let '(Build_DeploymentGroup a1 a2 a3 a4 a5 a6 a7 a8 a9 a10 a11 _ a13 a14
    a15 a16 a17 a18 a19 a20 a21 a22) := r in
  Build_DeploymentGroup a1 a2 a3 a4 a5 a6 a7 a8 a9 a10 a11 v a13 a14 a15
    a16 a17 a18 a19 a20 a21 a22.

Definition set_LoadBalancerInfo (v : option DeploymentGroup_LoadBalancerInfo) (r : DeploymentGroup)
  : DeploymentGroup :=
  let '(Build_DeploymentGroup a1 a2 a3 a4 a5 a6 a7 a8 a9 a10 a11 a12 _ a14
    a15 a16 a17 a18 a19 a20 a21 a22) := r in
  Build_DeploymentGroup a1 a2 a3 a4 a5 a6 a7 a8 a9 a10 a11 a12 v a14 a15
    a16 a17 a18 a19 a20 a21 a22.

Definition set_OnPremisesInstanceTagFilters (v : option (list DeploymentGroup_TagFilter)) (r : DeploymentGroup)
  : DeploymentGroup :=
  let '(Build_DeploymentGroup a1 a2 a3 a4 a5 a6 a7 a8 a9 a10 a11 a12 a13 _
    a15 a16 a17 a18 a19 a20 a21 a22) := r in
  Build_DeploymentGroup a1 a2 a3 a4 a5 a6 a7 a8 a9 a10 a11 a12 a13 v a15
    a16 a17 a18 a19 a20 a21 a22.

Definition set_OnPremisesTagSet (v : option DeploymentGroup_OnPremisesTagSet) (r : DeploymentGroup)
  : DeploymentGroup :=
  let '(Build_DeploymentGroup a1 a2 a3 a4 a5 a6 a7 a8 a9 a10 a11 a12 a13
    a14 _ a16 a17 a18 a19 a20 a21 a22) := r in
  Build_DeploymentGroup a1 a2 a3 a4 a5 a6 a7 a8 a9 a10 a11 a12 a13 a14 v
    a16 a17 a18 a19 a20 a21 a22.

Definition set_ServiceRoleArn (v : option Value) (r : DeploymentGroup)
  : DeploymentGroup :=
  let '(Build_DeploymentGroup a1 a2 a3 a4 a5 a6 a7 a8 a9 a10 a11 a12 a13
    a14 a15 _ a17 a18 a19 a20 a21 a22) := r in
  Build_DeploymentGroup a1 a2 a3 a4 a5 a6 a7 a8 a9 a10 a11 a12 a13 a14 a15
    v a17 a18 a19 a20 a21 a22.

Definition set_TriggerConfigurations (v : option (list DeploymentGroup_TriggerConfig)) (r : DeploymentGroup)
  : DeploymentGroup :=
  let '(Build_DeploymentGroup a1 a2 a3 a4 a5 a6 a7 a8 a9 a10 a11 a12 a13
    a14 a15 a16 _ a18 a19 a20 a21 a22) := r in
  Build_DeploymentGroup a1 a2 a3 a4 a5 a6 a7 a8 a9 a10 a11 a12 a13 a14 a15
    a16 v a18 a19 a20 a21 a22.

Definition set_AWSCloudFormationDeletionPolicy (v : string) (r : DeploymentGroup)
  : DeploymentGroup :=
  let '(Build_DeploymentGroup a1 a2 a3 a4 a5 a6 a7 a8 a9 a10 a11 a12 a13
    a14 a15 a16 a17 _ a19 a20 a21 a22) := r in
  Build_DeploymentGroup a1 a2 a3 a4 a5 a6 a7 a8 a9 a10 a11 a12 a13 a14 a15
    a16 a17 v a19 a20 a21 a22.

Definition set_AWSCloudFormationUpdateReplacePolicy (v : string) (r : DeploymentGroup)
  : DeploymentGroup :=
  let '(Build_DeploymentGroup a1 a2 a3 a4 a5 a6 a7 a8 a9 a10 a11 a12 a13
    a14 a15 a16 a17 a18 _ a20 a21 a22) := r in
  Build_DeploymentGroup a1 a2 a3 a4 a5 a6 a7 a8 a9 a10 a11 a12 a13 a14 a15
    a16 a17 a18 v a20 a21 a22.

Definition set_AWSCloudFormationDependsOn (v : option (list string)) (r : DeploymentGroup)
  : DeploymentGroup :=
  let '(Build_DeploymentGroup a1 a2 a3 a4 a5 a6 a7 a8 a9 a10 a11 a12 a13
    a14 a15 a16 a17 a18 a19 _ a21 a22) := r in
  Build_DeploymentGroup a1 a2 a3 a4 a5 a6 a7 a8 a9 a10 a11 a12 a13 a14 a15
    a16 a17 a18 a19 v a21 a22.

Definition set_AWSCloudFormationMetadata (v : option (gmap string any)) (r : DeploymentGroup)
  : DeploymentGroup :=
  let '(Build_DeploymentGroup a1 a2 a3 a4 a5 a6 a7 a8 a9 a10 a11 a12 a13
    a14 a15 a16 a17 a18 a19 a20 _ a22) := r in
  Build_DeploymentGroup a1 a2 a3 a4 a5 a6 a7 a8 a9 a10 a11 a12 a13 a14 a15
    a16 a17 a18 a19 a20 v a22.

Definition set_AWSCloudFormationCondition (v : string) (r : DeploymentGroup)
  : DeploymentGroup :=
  let '(Build_DeploymentGroup a1 a2 a3 a4 a5 a6 a7 a8 a9 a10 a11 a12 a13
    a14 a15 a16 a17 a18 a19 a20 a21 _) := r in
  Build_DeploymentGroup a1 a2 a3 a4 a5 a6 a7 a8 a9 a10 a11 a12 a13 a14 a15
    a16 a17 a18 a19 a20 a21 v.

Inductive property : Type :=
| P_AlarmConfiguration
| P_ApplicationName
| P_AutoRollbackConfiguration
| P_AutoScalingGroups
| P_BlueGreenDeploymentConfiguration
| P_Deployment
| P_DeploymentConfigName
| P_DeploymentGroupName
| P_DeploymentStyle
| P_ECSServices
| P_Ec2TagFilters
| P_Ec2TagSet
| P_LoadBalancerInfo
| P_OnPremisesInstanceTagFilters
| P_OnPremisesTagSet
| P_ServiceRoleArn
| P_TriggerConfigurations.

Definition properties : list (string * property) :=
  [ ("AlarmConfiguration", P_AlarmConfiguration);
    ("ApplicationName", P_ApplicationName);
    ("AutoRollbackConfiguration", P_AutoRollbackConfiguration);
    ("AutoScalingGroups", P_AutoScalingGroups);
    ("BlueGreenDeploymentConfiguration", P_BlueGreenDeploymentConfiguration);
    ("Deployment", P_Deployment);
    ("DeploymentConfigName", P_DeploymentConfigName);
    ("DeploymentGroupName", P_DeploymentGroupName);
    ("DeploymentStyle", P_DeploymentStyle);
    ("ECSServices", P_ECSServices);
    ("Ec2TagFilters", P_Ec2TagFilters);
    ("Ec2TagSet", P_Ec2TagSet);
    ("LoadBalancerInfo", P_LoadBalancerInfo);
    ("OnPremisesInstanceTagFilters", P_OnPremisesInstanceTagFilters);
    ("OnPremisesTagSet", P_OnPremisesTagSet);
    ("ServiceRoleArn", P_ServiceRoleArn);
    ("TriggerConfigurations", P_TriggerConfigurations) ].

Definition decodeProperty (f : property) (j : json) (p : DeploymentGroup)
  : decoder DeploymentGroup :=
  match f with
  | P_AlarmConfiguration =>
      v <- decodePtr j (AlarmConfiguration p) ;; dret (set_AlarmConfiguration v p)
  | P_ApplicationName =>
      v <- decodePtr j (ApplicationName p) ;; dret (set_ApplicationName v p)
  | P_AutoRollbackConfiguration =>
      v <- decodePtr j (AutoRollbackConfiguration p) ;; dret (set_AutoRollbackConfiguration v p)
  | P_AutoScalingGroups =>
      v <- decodePtr j (AutoScalingGroups p) ;; dret (set_AutoScalingGroups v p)
  | P_BlueGreenDeploymentConfiguration =>
      v <- decodePtr j (BlueGreenDeploymentConfiguration p) ;; dret (set_BlueGreenDeploymentConfiguration v p)
  | P_Deployment =>
      v <- decodePtr j (Deployment p) ;; dret (set_Deployment v p)
  | P_DeploymentConfigName =>
      v <- decodePtr j (DeploymentConfigName p) ;; dret (set_DeploymentConfigName v p)
  | P_DeploymentGroupName =>
      v <- decodePtr j (DeploymentGroupName p) ;; dret (set_DeploymentGroupName v p)
  | P_DeploymentStyle =>
      v <- decodePtr j (DeploymentStyle p) ;; dret (set_DeploymentStyle v p)
  | P_ECSServices =>
      v <- decodeSlice "[]DeploymentGroup_ECSService" j (ECSServices p) ;;
      dret (set_ECSServices v p)
  | P_Ec2TagFilters =>
      v <- decodeSlice "[]DeploymentGroup_EC2TagFilter" j (Ec2TagFilters p) ;;
      dret (set_Ec2TagFilters v p)
  | P_Ec2TagSet =>
      v <- decodePtr j (Ec2TagSet p) ;; dret (set_Ec2TagSet v p)
  | P_LoadBalancerInfo =>
      v <- decodePtr j (LoadBalancerInfo p) ;; dret (set_LoadBalancerInfo v p)
  | P_OnPremisesInstanceTagFilters =>
      v <- decodeSlice "[]DeploymentGroup_TagFilter" j (OnPremisesInstanceTagFilters p) ;;
      dret (set_OnPremisesInstanceTagFilters v p)
  | P_OnPremisesTagSet =>
      v <- decodePtr j (OnPremisesTagSet p) ;; dret (set_OnPremisesTagSet v p)
  | P_ServiceRoleArn =>
      v <- decodePtr j (ServiceRoleArn p) ;; dret (set_ServiceRoleArn v p)
  | P_TriggerConfigurations =>
      v <- decodeSlice "[]DeploymentGroup_TriggerConfig" j (TriggerConfigurations p) ;;
      dret (set_TriggerConfigurations v p)
  end.

Definition marshalProperties (r : DeploymentGroup) : result json :=
  marshalStruct
    [ marshalPtr "AlarmConfiguration" (AlarmConfiguration r);
      marshalPtr "ApplicationName" (ApplicationName r);
      marshalPtr "AutoRollbackConfiguration" (AutoRollbackConfiguration r);
      marshalPtr "AutoScalingGroups" (AutoScalingGroups r);
      marshalPtr "BlueGreenDeploymentConfiguration" (BlueGreenDeploymentConfiguration r);
      marshalPtr "Deployment" (Deployment r);
      marshalPtr "DeploymentConfigName" (DeploymentConfigName r);
      marshalPtr "DeploymentGroupName" (DeploymentGroupName r);
      marshalPtr "DeploymentStyle" (DeploymentStyle r);
      marshalSlice "ECSServices" (ECSServices r);
      marshalSlice "Ec2TagFilters" (Ec2TagFilters r);
      marshalPtr "Ec2TagSet" (Ec2TagSet r);
      marshalPtr "LoadBalancerInfo" (LoadBalancerInfo r);
      marshalSlice "OnPremisesInstanceTagFilters" (OnPremisesInstanceTagFilters r);
      marshalPtr "OnPremisesTagSet" (OnPremisesTagSet r);
      marshalPtr "ServiceRoleArn" (ServiceRoleArn r);
      marshalSlice "TriggerConfigurations" (TriggerConfigurations r) ].

(** The zero value of the struct. *)
Definition zeroDeploymentGroup : DeploymentGroup :=
  Build_DeploymentGroup None None None None None None None None None None None
    None None None None None None "" "" None None "".

(** [AWSCloudFormationType] returns the AWS CloudFormation resource type. *)
Definition AWSCloudFormationType (r : DeploymentGroup) : string :=
  "AWS::CodeDeploy::DeploymentGroup".

(** [type Properties DeploymentGroup]: the same struct without the
    methods of [DeploymentGroup], so the codec follows the field tags.
    The five fields tagged [json:"-"] are not in the table. *)
Definition Properties_GoJSON : GoJSON DeploymentGroup := {|
  zero := zeroDeploymentGroup;
  marshalJSON := marshalProperties;
  unmarshalJSON := decodeStruct true properties decodeProperty "codedeploy.Properties"
|}.

(** *** MarshalJSON *)

(** [MarshalJSON] embeds the object into the [Properties] field of an
    AWS CloudFormation resource and adds a [Type]. *)
Definition MarshalJSON (r : DeploymentGroup) : result json :=
  marshalStruct
    [ Ok [("Type", JStr (AWSCloudFormationType r))];
      (j <- marshalProperties r ;; Ok [("Properties", j)])%result;
      marshalSlice "DependsOn" (AWSCloudFormationDependsOn r);
      marshalMap marshalAny "Metadata" (AWSCloudFormationMetadata r);
      Ok (marshalString "DeletionPolicy" (AWSCloudFormationDeletionPolicy r));
      Ok (marshalString "UpdateReplacePolicy" (AWSCloudFormationUpdateReplacePolicy r));
      Ok (marshalString "Condition" (AWSCloudFormationCondition r)) ].

(** *** UnmarshalJSON *)

(** The local struct [res] that [UnmarshalJSON] decodes into. *)
Record envelope : Type := {
  Type' : string;
  Properties : option DeploymentGroup;
  DependsOn : option (list string);
  Metadata : option (gmap string any);
  DeletionPolicy : string;
  UpdateReplacePolicy : string;
  Condition : string
}.

Definition zeroEnvelope : envelope :=
  {| Type' := ""; Properties := None; DependsOn := None; Metadata := None;
     DeletionPolicy := ""; UpdateReplacePolicy := ""; Condition := "" |}.

Inductive envelopeField : Type :=
| E_Type
| E_Properties
| E_DependsOn
| E_Metadata
| E_DeletionPolicy
| E_UpdateReplacePolicy
| E_Condition.

Definition envelopeFields : list (string * envelopeField) :=
  [ ("Type", E_Type);
    ("Properties", E_Properties);
    ("DependsOn", E_DependsOn);
    ("Metadata", E_Metadata);
    ("DeletionPolicy", E_DeletionPolicy);
    ("UpdateReplacePolicy", E_UpdateReplacePolicy);
    ("Condition", E_Condition) ].

Definition decodeEnvelopeField (f : envelopeField) (j : json) (res : envelope)
  : decoder envelope :=
  match f with
  | E_Type =>
      v <- decodeString j (Type' res) ;;
      dret {| Type' := v; Properties := Properties res; DependsOn := DependsOn res;
              Metadata := Metadata res; DeletionPolicy := DeletionPolicy res;
              UpdateReplacePolicy := UpdateReplacePolicy res;
              Condition := Condition res |}
  | E_Properties =>
      v <- @decodePtr _ Properties_GoJSON j (Properties res) ;;
      dret {| Type' := Type' res; Properties := v; DependsOn := DependsOn res;
              Metadata := Metadata res; DeletionPolicy := DeletionPolicy res;
              UpdateReplacePolicy := UpdateReplacePolicy res;
              Condition := Condition res |}
  | E_DependsOn =>
      v <- decodeSlice "[]string" j (DependsOn res) ;;
      dret {| Type' := Type' res; Properties := Properties res; DependsOn := v;
              Metadata := Metadata res; DeletionPolicy := DeletionPolicy res;
              UpdateReplacePolicy := UpdateReplacePolicy res;
              Condition := Condition res |}
  | E_Metadata =>
      v <- decodeMap valueInterface j (Metadata res) ;;
      dret {| Type' := Type' res; Properties := Properties res;
              DependsOn := DependsOn res; Metadata := v;
              DeletionPolicy := DeletionPolicy res;
              UpdateReplacePolicy := UpdateReplacePolicy res;
              Condition := Condition res |}
  | E_DeletionPolicy =>
      v <- decodeString j (DeletionPolicy res) ;;
      dret {| Type' := Type' res; Properties := Properties res;
              DependsOn := DependsOn res; Metadata := Metadata res;
              DeletionPolicy := v;
              UpdateReplacePolicy := UpdateReplacePolicy res;
              Condition := Condition res |}
  | E_UpdateReplacePolicy =>
      v <- decodeString j (UpdateReplacePolicy res) ;;
      dret {| Type' := Type' res; Properties := Properties res;
              DependsOn := DependsOn res; Metadata := Metadata res;
              DeletionPolicy := DeletionPolicy res; UpdateReplacePolicy := v;
              Condition := Condition res |}
  | E_Condition =>
      v <- decodeString j (Condition res) ;;
      dret {| Type' := Type' res; Properties := Properties res;
              DependsOn := DependsOn res; Metadata := Metadata res;
              DeletionPolicy := DeletionPolicy res;
              UpdateReplacePolicy := UpdateReplacePolicy res; Condition := v |}
  end.

(** [dec.Decode(&res)], with [dec.DisallowUnknownFields()] in force.
    [res] is a pointer to a zero struct, and the decoder is given the
    address of that pointer: the JSON value null stores nil in [res], and
    any other value is decoded into the struct [res] points to. *)
Definition Decode (b : json) : result (option envelope) :=
  runDecoder
    match b with
    | JNull => dret None
    | _ =>
        res <- decodeStruct true envelopeFields decodeEnvelopeField "struct"
                 b zeroEnvelope ;;
        dret (Some res)
    end.

(** What a call of [UnmarshalJSON] does: it returns, leaving a value in
    the receiver and returning an error or nil, or it panics. *)
Inductive outcome : Type :=
| Returned (receiver : DeploymentGroup) (err : option error)
| Panicked.

(** [UnmarshalJSON] strips the outer AWS CloudFormation resource object
    and just keeps the [Properties] field.  (The line the source prints
    on a decoding error is not part of the model.) *)
Definition UnmarshalJSON (b : json) (r : DeploymentGroup) : outcome :=
  match Decode b with
  | Err err => Returned r (Some err)
  | Ok None => Panicked
  | Ok (Some res) =>
      let r := match Properties res with
               | Some p => p
               | None => r
               end in
      let r := match DependsOn res with
               | Some d => set_AWSCloudFormationDependsOn (Some d) r
               | None => r
               end in
      let r := match Metadata res with
               | Some m => set_AWSCloudFormationMetadata (Some m) r
               | None => r
               end in
      let r := if String.eqb (DeletionPolicy res) "" then r
               else set_AWSCloudFormationDeletionPolicy (DeletionPolicy res) r in
      let r := if String.eqb (UpdateReplacePolicy res) "" then r
               else set_AWSCloudFormationUpdateReplacePolicy (UpdateReplacePolicy res) r in
      let r := if String.eqb (Condition res) "" then r
               else set_AWSCloudFormationCondition (Condition res) r in
      Returned r None
  end.

End DeploymentGroup.
End codedeploy.

(** ** Package glue: the property type MLTransform.InputRecordTables *)

Module glue.
Section MLTransform_InputRecordTables.

Context {MLTransform_GlueTables : Type} `{!GoJSON MLTransform_GlueTables}.
Context {any : Type}.

Record MLTransform_InputRecordTables : Type := {
  GlueTables : option (list MLTransform_GlueTables);
  AWSCloudFormationDeletionPolicy : string;
  AWSCloudFormationUpdateReplacePolicy : string;
  AWSCloudFormationDependsOn : option (list string);
  AWSCloudFormationMetadata : option (gmap string any);
  AWSCloudFormationCondition : string
}.

Definition set_GlueTables (v : option (list MLTransform_GlueTables)) (r : MLTransform_InputRecordTables) : MLTransform_InputRecordTables :=
  let '(Build_MLTransform_InputRecordTables _ a2 a3 a4 a5 a6) := r in
  Build_MLTransform_InputRecordTables v a2 a3 a4 a5 a6.

Definition zeroStruct : MLTransform_InputRecordTables :=
  Build_MLTransform_InputRecordTables None "" "" None None "".

(** [AWSCloudFormationType] returns the AWS CloudFormation resource type. *)
Definition AWSCloudFormationType (r : MLTransform_InputRecordTables) : string :=
  "AWS::Glue::MLTransform.InputRecordTables".

(** The fields the codec sees: those not tagged [json:"-"]. *)
Inductive property : Type :=
| P_GlueTables.

Definition properties : list (string * property) :=
  [ ("GlueTables", P_GlueTables) ].

Definition decodeProperty (f : property) (j : json) (p : MLTransform_InputRecordTables)
  : decoder MLTransform_InputRecordTables :=
  match f with
  | P_GlueTables =>
      v <- decodeSlice "[]glue.MLTransform_GlueTables" j (GlueTables p) ;; dret (set_GlueTables v p)
  end.

(** The struct has no codec methods of its own: [encoding/json] goes by
    its field tags. *)
Definition marshal (r : MLTransform_InputRecordTables) : result json :=
  marshalStruct
    [ marshalSlice "GlueTables" (GlueTables r) ].

Definition unmarshal (disallowUnknownFields : bool) (j : json) (r : MLTransform_InputRecordTables)
  : decoder MLTransform_InputRecordTables :=
  decodeStruct disallowUnknownFields properties decodeProperty
    "glue.MLTransform_InputRecordTables" j r.

Definition MLTransform_InputRecordTables_GoJSON (disallowUnknownFields : bool) : GoJSON MLTransform_InputRecordTables := {|
  zero := zeroStruct;
  marshalJSON := marshal;
  unmarshalJSON := unmarshal disallowUnknownFields
|}.

End MLTransform_InputRecordTables.
End glue.

(** ** Package ecs: the property type Service.DeploymentController *)

Module ecs.
Section Service_DeploymentController.

Context {Value : Type} `{!GoJSON Value}.
Context {any : Type}.

Record Service_DeploymentController : Type := {
  Type' : option Value;
  AWSCloudFormationDeletionPolicy : string;
  AWSCloudFormationUpdateReplacePolicy : string;
  AWSCloudFormationDependsOn : option (list string);
  AWSCloudFormationMetadata : option (gmap string any);
  AWSCloudFormationCondition : string
}.

Definition set_Type_ (v : option Value) (r : Service_DeploymentController) : Service_DeploymentController :=
  let '(Build_Service_DeploymentController _ a2 a3 a4 a5 a6) := r in
  Build_Service_DeploymentController v a2 a3 a4 a5 a6.

Definition zeroStruct : Service_DeploymentController :=
  Build_Service_DeploymentController None "" "" None None "".

(** [AWSCloudFormationType] returns the AWS CloudFormation resource type. *)
Definition AWSCloudFormationType (r : Service_DeploymentController) : string :=
  "AWS::ECS::Service.DeploymentController".

(** The fields the codec sees: those not tagged [json:"-"]. *)
Inductive property : Type :=
| P_Type.

Definition properties : list (string * property) :=
  [ ("Type", P_Type) ].

Definition decodeProperty (f : property) (j : json) (p : Service_DeploymentController)
  : decoder Service_DeploymentController :=
  match f with
  | P_Type => v <- decodePtr j (Type' p) ;; dret (set_Type_ v p)
  end.

(** The struct has no codec methods of its own: [encoding/json] goes by
    its field tags. *)
Definition marshal (r : Service_DeploymentController) : result json :=
  marshalStruct
    [ marshalPtr "Type" (Type' r) ].

Definition unmarshal (disallowUnknownFields : bool) (j : json) (r : Service_DeploymentController)
  : decoder Service_DeploymentController :=
  decodeStruct disallowUnknownFields properties decodeProperty
    "ecs.Service_DeploymentController" j r.

Definition Service_DeploymentController_GoJSON (disallowUnknownFields : bool) : GoJSON Service_DeploymentController := {|
  zero := zeroStruct;
  marshalJSON := marshal;
  unmarshalJSON := unmarshal disallowUnknownFields
|}.

End Service_DeploymentController.
End ecs.

(** ** Package cognito: the property type UserPoolRiskConfigurationAttachment.NotifyConfigurationType *)

Module cognito.
Section UserPoolRiskConfigurationAttachment_NotifyConfigurationType.

Context {Value : Type} `{!GoJSON Value}.
Context {UserPoolRiskConfigurationAttachment_NotifyEmailType : Type} `{!GoJSON UserPoolRiskConfigurationAttachment_NotifyEmailType}.
Context {any : Type}.

Record UserPoolRiskConfigurationAttachment_NotifyConfigurationType : Type := {
  BlockEmail : option UserPoolRiskConfigurationAttachment_NotifyEmailType;
  From : option Value;
  MfaEmail : option UserPoolRiskConfigurationAttachment_NotifyEmailType;
  NoActionEmail : option UserPoolRiskConfigurationAttachment_NotifyEmailType;
  ReplyTo : option Value;
  SourceArn : option Value;
  AWSCloudFormationDeletionPolicy : string;
  AWSCloudFormationUpdateReplacePolicy : string;
  AWSCloudFormationDependsOn : option (list string);
  AWSCloudFormationMetadata : option (gmap string any);
  AWSCloudFormationCondition : string
}.

Definition set_BlockEmail (v : option UserPoolRiskConfigurationAttachment_NotifyEmailType) (r : UserPoolRiskConfigurationAttachment_NotifyConfigurationType) : UserPoolRiskConfigurationAttachment_NotifyConfigurationType :=
  let '(Build_UserPoolRiskConfigurationAttachment_NotifyConfigurationType _
    a2 a3 a4 a5 a6 a7 a8 a9 a10 a11) := r in
  Build_UserPoolRiskConfigurationAttachment_NotifyConfigurationType v a2 a3
    a4 a5 a6 a7 a8 a9 a10 a11.
Definition set_From (v : option Value) (r : UserPoolRiskConfigurationAttachment_NotifyConfigurationType) : UserPoolRiskConfigurationAttachment_NotifyConfigurationType :=
  let '(Build_UserPoolRiskConfigurationAttachment_NotifyConfigurationType a1
    _ a3 a4 a5 a6 a7 a8 a9 a10 a11) := r in
  Build_UserPoolRiskConfigurationAttachment_NotifyConfigurationType a1 v a3
    a4 a5 a6 a7 a8 a9 a10 a11.
Definition set_MfaEmail (v : option UserPoolRiskConfigurationAttachment_NotifyEmailType) (r : UserPoolRiskConfigurationAttachment_NotifyConfigurationType) : UserPoolRiskConfigurationAttachment_NotifyConfigurationType :=
  let '(Build_UserPoolRiskConfigurationAttachment_NotifyConfigurationType a1
    a2 _ a4 a5 a6 a7 a8 a9 a10 a11) := r in
  Build_UserPoolRiskConfigurationAttachment_NotifyConfigurationType a1 a2 v
    a4 a5 a6 a7 a8 a9 a10 a11.
Definition set_NoActionEmail (v : option UserPoolRiskConfigurationAttachment_NotifyEmailType) (r : UserPoolRiskConfigurationAttachment_NotifyConfigurationType) : UserPoolRiskConfigurationAttachment_NotifyConfigurationType :=
  let '(Build_UserPoolRiskConfigurationAttachment_NotifyConfigurationType a1
    a2 a3 _ a5 a6 a7 a8 a9 a10 a11) := r in
  Build_UserPoolRiskConfigurationAttachment_NotifyConfigurationType a1 a2 a3
    v a5 a6 a7 a8 a9 a10 a11.
Definition set_ReplyTo (v : option Value) (r : UserPoolRiskConfigurationAttachment_NotifyConfigurationType) : UserPoolRiskConfigurationAttachment_NotifyConfigurationType :=
  let '(Build_UserPoolRiskConfigurationAttachment_NotifyConfigurationType a1
    a2 a3 a4 _ a6 a7 a8 a9 a10 a11) := r in
  Build_UserPoolRiskConfigurationAttachment_NotifyConfigurationType a1 a2 a3
    a4 v a6 a7 a8 a9 a10 a11.
Definition set_SourceArn (v : option Value) (r : UserPoolRiskConfigurationAttachment_NotifyConfigurationType) : UserPoolRiskConfigurationAttachment_NotifyConfigurationType :=
  let '(Build_UserPoolRiskConfigurationAttachment_NotifyConfigurationType a1
    a2 a3 a4 a5 _ a7 a8 a9 a10 a11) := r in
  Build_UserPoolRiskConfigurationAttachment_NotifyConfigurationType a1 a2 a3
    a4 a5 v a7 a8 a9 a10 a11.

Definition zeroStruct : UserPoolRiskConfigurationAttachment_NotifyConfigurationType :=
  Build_UserPoolRiskConfigurationAttachment_NotifyConfigurationType None
    None None None None None "" "" None None "".

(** [AWSCloudFormationType] returns the AWS CloudFormation resource type. *)
Definition AWSCloudFormationType (r : UserPoolRiskConfigurationAttachment_NotifyConfigurationType) : string :=
  "AWS::Cognito::UserPoolRiskConfigurationAttachment.NotifyConfigurationType".

(** The fields the codec sees: those not tagged [json:"-"]. *)
Inductive property : Type :=
| P_BlockEmail
| P_From
| P_MfaEmail
| P_NoActionEmail
| P_ReplyTo
| P_SourceArn.

Definition properties : list (string * property) :=
  [ ("BlockEmail", P_BlockEmail);
    ("From", P_From);
    ("MfaEmail", P_MfaEmail);
    ("NoActionEmail", P_NoActionEmail);
    ("ReplyTo", P_ReplyTo);
    ("SourceArn", P_SourceArn) ].

Definition decodeProperty (f : property) (j : json) (p : UserPoolRiskConfigurationAttachment_NotifyConfigurationType)
  : decoder UserPoolRiskConfigurationAttachment_NotifyConfigurationType :=
  match f with
  | P_BlockEmail => v <- decodePtr j (BlockEmail p) ;; dret (set_BlockEmail v p)
  | P_From => v <- decodePtr j (From p) ;; dret (set_From v p)
  | P_MfaEmail => v <- decodePtr j (MfaEmail p) ;; dret (set_MfaEmail v p)
  | P_NoActionEmail => v <- decodePtr j (NoActionEmail p) ;; dret (set_NoActionEmail v p)
  | P_ReplyTo => v <- decodePtr j (ReplyTo p) ;; dret (set_ReplyTo v p)
  | P_SourceArn => v <- decodePtr j (SourceArn p) ;; dret (set_SourceArn v p)
  end.

(** The struct has no codec methods of its own: [encoding/json] goes by
    its field tags. *)
Definition marshal (r : UserPoolRiskConfigurationAttachment_NotifyConfigurationType) : result json :=
  marshalStruct
    [ marshalPtr "BlockEmail" (BlockEmail r);
      marshalPtr "From" (From r);
      marshalPtr "MfaEmail" (MfaEmail r);
      marshalPtr "NoActionEmail" (NoActionEmail r);
      marshalPtr "ReplyTo" (ReplyTo r);
      marshalPtr "SourceArn" (SourceArn r) ].

Definition unmarshal (disallowUnknownFields : bool) (j : json) (r : UserPoolRiskConfigurationAttachment_NotifyConfigurationType)
  : decoder UserPoolRiskConfigurationAttachment_NotifyConfigurationType :=
  decodeStruct disallowUnknownFields properties decodeProperty
    "cognito.UserPoolRiskConfigurationAttachment_NotifyConfigurationType" j r.

Definition UserPoolRiskConfigurationAttachment_NotifyConfigurationType_GoJSON (disallowUnknownFields : bool) : GoJSON UserPoolRiskConfigurationAttachment_NotifyConfigurationType := {|
  zero := zeroStruct;
  marshalJSON := marshal;
  unmarshalJSON := unmarshal disallowUnknownFields
|}.

End UserPoolRiskConfigurationAttachment_NotifyConfigurationType.
End cognito.

(** ** A concrete instance, to run the codec

    [types.Value] is taken to be a literal string, every nested property
    type of DeploymentGroup to be the property type
    [Service_DeploymentController] of package ecs, and a dynamic value to
    be the JSON tree itself. *)

Module example.

Definition Value : Type := string.
Definition any : Type := json.
Definition valueInterface (j : json) : any := j.
Definition marshalAny (v : any) : result json := Ok v.

Definition Nested : Type := @ecs.Service_DeploymentController Value any.

#[export] Instance Nested_GoJSON : GoJSON Nested :=
  ecs.Service_DeploymentController_GoJSON true.

Definition DeploymentGroup : Type :=
  @codedeploy.DeploymentGroup Value Nested Nested Nested Nested Nested Nested
    Nested Nested Nested Nested Nested Nested any.

Definition MarshalJSON (r : DeploymentGroup) : result json :=
  codedeploy.MarshalJSON marshalAny r.

Definition UnmarshalJSON (b : json) (r : DeploymentGroup)
  : codedeploy.outcome :=
  codedeploy.UnmarshalJSON valueInterface b r.

Definition controller (t : string) : Nested :=
  ecs.Build_Service_DeploymentController (Some t) "" "" None None "".

(** A DeploymentGroup with every property and every envelope field set. *)
Definition populated : DeploymentGroup :=
  codedeploy.Build_DeploymentGroup
    (Some (controller "alarm")) (Some "app") (Some (controller "rollback"))
    (Some "asg") (Some (controller "bluegreen")) (Some (controller "deployment"))
    (Some "config") (Some "group") (Some (controller "style"))
    (Some [controller "ecs1"; controller "ecs2"]) (Some [controller "filter"])
    (Some (controller "tagset")) (Some (controller "lb"))
    (Some [controller "onprem"]) (Some (controller "onpremset"))
    (Some "arn:role") (Some [controller "trigger"])
    "Retain" "Snapshot" (Some ["A"; "B"])
    (Some {[ "owner" := JStr "team"; "cost" := JNum "12" ]}) "IsProd".

Definition zeroValue : DeploymentGroup := codedeploy.zeroDeploymentGroup.

End example.

(** * Sanity checks of the name matching *)

Example equalFold_lower : equalFold "Type" "type" = true.
Proof. reflexivity. Qed.

Example equalFold_long_s :
  equalFold "DependsOn" ("Depend" ++ String "197" (String "191" "On")) = true.
Proof. reflexivity. Qed.

Example equalFold_digit : equalFold "Type" "Typ5" = false.
Proof. reflexivity. Qed.

(** * Properties of the decoder monad and of the generic codec *)

Lemma dbind_clean {A B} (c : decoder A) (k : A -> decoder B) a :
  c = Ok (a, None) -> dbind c k = k a.
Proof.
  intros ->. unfold dbind. destruct (k a) as [[b later]|e]; reflexivity.
Qed.

(** A step sequence ends without a saved error only if each step does. *)
Lemma dbind_clean_inv {A B} (c : decoder A) (k : A -> decoder B) b :
  dbind c k = Ok (b, None) ->
  exists a, c = Ok (a, None) /\ k a = Ok (b, None).
Proof.
  unfold dbind. destruct c as [[a saved]|e]; [|discriminate].
  destruct (k a) as [[b' later]|e] eqn:Hk; [|discriminate].
  destruct saved as [e|]; simpl; [discriminate|].
  intros [= -> ->]. exists a. split; [reflexivity|exact Hk].
Qed.

Lemma dbind_ok_inv {A B} (c : decoder A) (k : A -> decoder B) b saved :
  dbind c k = Ok (b, saved) ->
  exists a s1 s2, c = Ok (a, s1) /\ k a = Ok (b, s2).
Proof.
  unfold dbind. destruct c as [[a s1]|e]; [|discriminate].
  destruct (k a) as [[b' s2]|e] eqn:Hk; [|discriminate].
  intros [= -> _]. eauto.
Qed.

Lemma runDecoder_ok {A} (c : decoder A) a :
  runDecoder c = Ok a <-> c = Ok (a, None).
Proof.
  unfold runDecoder. destruct c as [[a' [e|]]|e]; split; congruence.
Qed.

Section members.
Context {F S : Type} (d : bool) (fields : list (string * F))
        (store : F -> json -> S -> decoder S).

Lemma decodeMembers_app_clean l1 l2 s s1 :
  decodeMembers d fields store l1 s = Ok (s1, None) ->
  decodeMembers d fields store (l1 ++ l2) s = decodeMembers d fields store l2 s1.
Proof.
  revert s. induction l1 as [|[key j] l1 IH]; intros s; simpl.
  - unfold dret. intros [= ->]. reflexivity.
  - destruct (findField fields key) as [f|].
    + intros H. apply dbind_clean_inv in H as (s' & Hs' & Hrest).
      rewrite (dbind_clean _ _ _ Hs'). apply IH, Hrest.
    + intros H. apply dbind_clean_inv in H as (u & Hu & Hrest).
      rewrite (dbind_clean _ _ _ Hu). apply IH, Hrest.
Qed.

(** When the members of an object are decoded without an error, every
    member selected a field (or unknown fields are allowed), and storing
    it went without an error. *)
Lemma decodeMembers_clean_inv ms s s' key j :
  decodeMembers d fields store ms s = Ok (s', None) ->
  (key, j) ∈ ms ->
  match findField fields key with
  | Some f => exists s0 s1, store f j s0 = Ok (s1, None)
  | None => d = false
  end.
Proof.
  revert s. induction ms as [|[key' j'] ms IH]; intros s Hdec Hin.
  - inversion Hin.
  - simpl in Hdec. apply elem_of_cons in Hin as [[= <- <-]|Hin].
    + destruct (findField fields key) as [f|].
      * apply dbind_clean_inv in Hdec as (s1 & Hs1 & _). eauto.
      * apply dbind_clean_inv in Hdec as (u & Hu & _).
        destruct d; [discriminate|reflexivity].
    + destruct (findField fields key') as [f|];
        apply dbind_clean_inv in Hdec as (x & _ & Hrest);
        exact (IH _ Hrest Hin).
Qed.

(** A component of the struct that no selected field touches is the same
    after decoding, whether or not an error was saved. *)
Lemma decodeMembers_frame {A} (get : S -> A) (touches : F -> Prop) ms :
  (forall f j s s' saved,
      ~ touches f -> store f j s = Ok (s', saved) -> get s' = get s) ->
  (forall key f, key ∈ ms.*1 -> findField fields key = Some f -> ~ touches f) ->
  forall s s' saved,
    decodeMembers d fields store ms s = Ok (s', saved) -> get s' = get s.
Proof.
  intros Hstore. induction ms as [|[key j] ms IH]; intros Hsel s s' saved; simpl.
  - unfold dret. intros [= -> _]. reflexivity.
  - assert (Hsel' : forall key f, key ∈ ms.*1 -> findField fields key = Some f ->
                                  ~ touches f).
    { intros key' f' Hin. apply Hsel. simpl. right. exact Hin. }
    destruct (findField fields key) as [f|] eqn:Hf; intros Hdec;
      apply dbind_ok_inv in Hdec as (x & s1 & s2 & Hx & Hrest).
    + rewrite (IH Hsel' _ _ _ Hrest).
      apply (Hstore f j s x s1); [|exact Hx].
      apply (Hsel key); [simpl; left|exact Hf].
    + exact (IH Hsel' _ _ _ Hrest).
Qed.

Lemma decodeMembers_single key j s f :
  findField fields key = Some f ->
  decodeMembers d fields store [(key, j)] s = dbind (store f j s) dret.
Proof. intros Hf. simpl. rewrite Hf. reflexivity. Qed.

End members.


Lemma marshalFields_cons_inv f fs ms :
  marshalFields (f :: fs) = Ok ms ->
  exists m1 m2, f = Ok m1 /\ marshalFields fs = Ok m2 /\ ms = (m1 ++ m2)%list.
Proof.
  simpl. destruct f as [m1|e]; simpl; [|discriminate].
  destruct (marshalFields fs) as [m2|e]; simpl; [|discriminate].
  intros [= <-]. eauto.
Qed.

Lemma marshalFields_nil_inv ms : marshalFields [] = Ok ms -> ms = [].
Proof. simpl. congruence. Qed.

Lemma marshalStruct_inv fs j :
  marshalStruct fs = Ok j -> exists ms, marshalFields fs = Ok ms /\ j = JObj ms.
Proof.
  unfold marshalStruct. destruct (marshalFields fs) as [ms|e]; simpl; [|discriminate].
  intros [= <-]. eauto.
Qed.

(** *** Encoding a field and decoding it again *)

Lemma decodePtr_nonnull {T} `{GoJSON T} j (p : option T) :
  j <> JNull ->
  decodePtr j p = dbind (unmarshalJSON j (default zero p)) (fun x => dret (Some x)).
Proof. destruct j; [congruence|reflexivity..]. Qed.

Lemma marshalElems_decodeElems {T} `{GoJSON T} (xs : list T) js :
  marshalElems xs = Ok js -> Forall roundtrips xs ->
  decodeElems js [] = Ok (xs, None).
Proof.
  revert js. induction xs as [|x xs IH]; intros js; simpl.
  - intros [= <-] _. reflexivity.
  - destruct (marshalJSON x) as [j|e] eqn:Hj; simpl; [|discriminate].
    destruct (marshalElems xs) as [js'|e]; simpl; [|discriminate].
    intros [= <-] Hall. inversion Hall as [|? ? Hx Hxs]; subst. simpl.
    rewrite (dbind_clean _ _ _ (Hx j Hj)).
    rewrite (dbind_clean _ _ _ (IH js' eq_refl Hxs)). reflexivity.
Qed.




Section fields.
Context {F S : Type} (d : bool) (fields : list (string * F))
        (store : F -> json -> S -> decoder S).

(** Each lemma takes the members the encoder wrote for one field, and
    decodes them into a struct [s] whose field is still zero. *)
Lemma decode_marshalPtr {T} `{GoJSON T} name f (get : S -> option T)
    (set : option T -> S -> S) (p : option T) ms s :
  findField fields name = Some f ->
  (forall j s, store f j s = dbind (decodePtr j (get s)) (fun v => dret (set v s))) ->
  get s = None -> set None s = s ->
  marshalPtr name p = Ok ms -> ptrRoundtrips p ->
  decodeMembers d fields store ms s = Ok (set p s, None).
Proof.
  intros Hf Hstore Hget Hset Hms Hrt. destruct p as [x|]; simpl in Hms.
  - destruct (marshalJSON x) as [j|e] eqn:Hj; simpl in Hms; [|discriminate].
    injection Hms as <-. destruct (Hrt x eq_refl) as [Hx Hnull].
    rewrite (decodeMembers_single _ _ _ _ _ _ _ Hf), Hstore, Hget.
    rewrite decodePtr_nonnull by congruence. simpl.
    rewrite (dbind_clean _ _ _ (Hx j Hj)). reflexivity.
  - injection Hms as <-. simpl. rewrite Hset. reflexivity.
Qed.

Lemma decode_marshalSlice {T} `{GoJSON T} target name f (get : S -> option (list T))
    (set : option (list T) -> S -> S) (p : option (list T)) ms s :
  findField fields name = Some f ->
  (forall j s, store f j s
               = dbind (decodeSlice target j (get s)) (fun v => dret (set v s))) ->
  get s = None -> set None s = s ->
  marshalSlice name p = Ok ms -> sliceRoundtrips p ->
  decodeMembers d fields store ms s = Ok (set (normSlice p) s, None).
Proof.
  intros Hf Hstore Hget Hset Hms Hrt.
  destruct p as [[|x xs]|]; unfold marshalSlice in Hms;
    try (injection Hms as <-; simpl; unfold normSlice; simpl; rewrite Hset;
         reflexivity).
  destruct (marshalElems (x :: xs)) as [js|e] eqn:Hjs; simpl in Hms; [|discriminate].
  injection Hms as <-.
  rewrite (decodeMembers_single _ _ _ _ _ _ _ Hf), Hstore, Hget.
  unfold decodeSlice. simpl default.
  rewrite (dbind_clean _ _ _ (marshalElems_decodeElems _ _ Hjs (Hrt _ eq_refl))).
  reflexivity.
Qed.


End fields.

Section map_fields.
Context {any : Type} (valueInterface : json -> any)
        (marshalAny : any -> result json).

Lemma sortedEntries_Permutation (m : gmap string any) :
  sortedEntries m ≡ₚ map_to_list m.
Proof. apply merge_sort_Permutation. Qed.

Lemma sortedEntries_nil (m : gmap string any) :
  sortedEntries m = [] <-> size m = 0.
Proof.
  rewrite map_size_empty_iff, <- map_to_list_empty_iff.
  pose proof (sortedEntries_Permutation m) as Hperm. split; intros Hnil.
  - rewrite Hnil in Hperm. symmetry. apply Permutation_nil_l, Hperm.
  - rewrite Hnil in Hperm. apply Permutation_nil_r, Hperm.
Qed.

Lemma marshalEntries_keys kvs js :
  marshalEntries marshalAny kvs = Ok js -> js.*1 = kvs.*1.
Proof.
  revert js. induction kvs as [|[k v] kvs IH]; intros js; simpl.
  - intros [= <-]. reflexivity.
  - destruct (marshalAny v) as [j|e]; simpl; [|discriminate].
    destruct (marshalEntries marshalAny kvs) as [js'|e]; simpl; [|discriminate].
    intros [= <-]. simpl. f_equal. apply IH. reflexivity.
Qed.






End map_fields.

Lemma dbind_dret {A B} (a : A) (k : A -> decoder B) : dbind (dret a) k = k a.
Proof. apply dbind_clean. reflexivity. Qed.


#[global] Arguments dbind : simpl never.
#[global] Arguments dret : simpl never.

(** * DeploymentGroup: what the decoder accepts and what it stores *)

Module codedeploy_decode.
Import codedeploy.

Section decode.
Context {Value : Type} `{!GoJSON Value}.
Context {DeploymentGroup_AlarmConfiguration : Type}
        `{!GoJSON DeploymentGroup_AlarmConfiguration}.
Context {DeploymentGroup_AutoRollbackConfiguration : Type}
        `{!GoJSON DeploymentGroup_AutoRollbackConfiguration}.
Context {DeploymentGroup_BlueGreenDeploymentConfiguration : Type}
        `{!GoJSON DeploymentGroup_BlueGreenDeploymentConfiguration}.
Context {DeploymentGroup_Deployment : Type}
        `{!GoJSON DeploymentGroup_Deployment}.
Context {DeploymentGroup_DeploymentStyle : Type}
        `{!GoJSON DeploymentGroup_DeploymentStyle}.
Context {DeploymentGroup_ECSService : Type}
        `{!GoJSON DeploymentGroup_ECSService}.
Context {DeploymentGroup_EC2TagFilter : Type}
        `{!GoJSON DeploymentGroup_EC2TagFilter}.
Context {DeploymentGroup_EC2TagSet : Type}
        `{!GoJSON DeploymentGroup_EC2TagSet}.
Context {DeploymentGroup_LoadBalancerInfo : Type}
        `{!GoJSON DeploymentGroup_LoadBalancerInfo}.
Context {DeploymentGroup_TagFilter : Type}
        `{!GoJSON DeploymentGroup_TagFilter}.
Context {DeploymentGroup_OnPremisesTagSet : Type}
        `{!GoJSON DeploymentGroup_OnPremisesTagSet}.
Context {DeploymentGroup_TriggerConfig : Type}
        `{!GoJSON DeploymentGroup_TriggerConfig}.
Context {any : Type} (valueInterface : json -> any)
        (marshalAny : any -> result json).

Abbreviation DeploymentGroup :=
  (@DeploymentGroup Value DeploymentGroup_AlarmConfiguration
     DeploymentGroup_AutoRollbackConfiguration
     DeploymentGroup_BlueGreenDeploymentConfiguration
     DeploymentGroup_Deployment DeploymentGroup_DeploymentStyle
     DeploymentGroup_ECSService DeploymentGroup_EC2TagFilter
     DeploymentGroup_EC2TagSet DeploymentGroup_LoadBalancerInfo
     DeploymentGroup_TagFilter DeploymentGroup_OnPremisesTagSet
     DeploymentGroup_TriggerConfig any).
Abbreviation envelope :=
  (@envelope Value DeploymentGroup_AlarmConfiguration
     DeploymentGroup_AutoRollbackConfiguration
     DeploymentGroup_BlueGreenDeploymentConfiguration
     DeploymentGroup_Deployment DeploymentGroup_DeploymentStyle
     DeploymentGroup_ECSService DeploymentGroup_EC2TagFilter
     DeploymentGroup_EC2TagSet DeploymentGroup_LoadBalancerInfo
     DeploymentGroup_TagFilter DeploymentGroup_OnPremisesTagSet
     DeploymentGroup_TriggerConfig any).
Abbreviation zeroEnvelope :=
  (@zeroEnvelope Value DeploymentGroup_AlarmConfiguration
     DeploymentGroup_AutoRollbackConfiguration
     DeploymentGroup_BlueGreenDeploymentConfiguration
     DeploymentGroup_Deployment DeploymentGroup_DeploymentStyle
     DeploymentGroup_ECSService DeploymentGroup_EC2TagFilter
     DeploymentGroup_EC2TagSet DeploymentGroup_LoadBalancerInfo
     DeploymentGroup_TagFilter DeploymentGroup_OnPremisesTagSet
     DeploymentGroup_TriggerConfig any).
Abbreviation decodeEnvelope ms :=
  (decodeMembers true envelopeFields (decodeEnvelopeField valueInterface)
     ms zeroEnvelope).

(** The assignments [UnmarshalJSON] makes once [res] is decoded. *)
Definition assign (res : envelope) (r : DeploymentGroup) : DeploymentGroup :=
  let r := match Properties res with
           | Some p => p
           | None => r
           end in
  let r := match DependsOn res with
           | Some d => set_AWSCloudFormationDependsOn (Some d) r
           | None => r
           end in
  let r := match Metadata res with
           | Some m => set_AWSCloudFormationMetadata (Some m) r
           | None => r
           end in
  let r := if String.eqb (DeletionPolicy res) "" then r
           else set_AWSCloudFormationDeletionPolicy (DeletionPolicy res) r in
  let r := if String.eqb (UpdateReplacePolicy res) "" then r
           else set_AWSCloudFormationUpdateReplacePolicy (UpdateReplacePolicy res) r in
  let r := if String.eqb (Condition res) "" then r
           else set_AWSCloudFormationCondition (Condition res) r in
  r.

Lemma Decode_object ms :
  Decode valueInterface (JObj ms) =
  match decodeEnvelope ms with
  | Ok (res, None) => Ok (Some res)
  | Ok (_, Some e) => Err e
  | Err e => Err e
  end.
Proof.
  unfold Decode, runDecoder, dbind; simpl.
  destruct (decodeEnvelope ms) as [[res [e|]]|e]; reflexivity.
Qed.

Lemma UnmarshalJSON_object ms (r : DeploymentGroup) :
  UnmarshalJSON valueInterface (JObj ms) r =
  match decodeEnvelope ms with
  | Ok (res, None) => Returned (assign res r) None
  | Ok (_, Some e) => Returned r (Some e)
  | Err e => Returned r (Some e)
  end.
Proof.
  unfold UnmarshalJSON. rewrite Decode_object.
  destruct (decodeEnvelope ms) as [[res [e|]]|e]; reflexivity.
Qed.

(** An object is never the cause of a panic, and an object that is not
    decoded without an error leaves the receiver as it was. *)
Lemma UnmarshalJSON_object_rejected ms (r : DeploymentGroup) :
  (forall res, decodeEnvelope ms <> Ok (res, None)) ->
  exists e, UnmarshalJSON valueInterface (JObj ms) r = Returned r (Some e).
Proof.
  intros Hbad. rewrite UnmarshalJSON_object.
  destruct (decodeEnvelope ms) as [[res [e|]]|e]; eauto.
  destruct (Hbad res); reflexivity.
Qed.

Lemma UnmarshalJSON_object_accepted ms (r r' : DeploymentGroup) :
  UnmarshalJSON valueInterface (JObj ms) r = Returned r' None ->
  exists res, decodeEnvelope ms = Ok (res, None) /\ r' = assign res r.
Proof.
  rewrite UnmarshalJSON_object.
  destruct (decodeEnvelope ms) as [[res [e|]]|e]; [discriminate| |discriminate].
  intros [= <-]. eauto.
Qed.

Lemma decodeString_clean_inv j s v :
  decodeString j s = Ok (v, None) -> j = JNull \/ exists x, j = JStr x.
Proof. destruct j; simpl; try discriminate; eauto. Qed.




(** C3, as amended: in an object the decoder accepts, every member that
    selects the field Type holds a string or null; the member is not
    required, and the empty object is accepted. *)
Theorem accepted_Type_is_string ms key j (r r' : DeploymentGroup) :
  UnmarshalJSON valueInterface (JObj ms) r = Returned r' None ->
  (key, j) ∈ ms ->
  findField envelopeFields key = Some E_Type ->
  (j = JNull \/ exists s, j = JStr s)
  /\ UnmarshalJSON valueInterface (JObj []) r = Returned r None.
Proof.
  intros Hacc Hin Hsel. split; [|reflexivity].
  apply UnmarshalJSON_object_accepted in Hacc as (res & Hdec & _).
  pose proof (decodeMembers_clean_inv _ _ _ _ _ _ _ _ Hdec Hin) as Hstore.
  rewrite Hsel in Hstore. destruct Hstore as (s0 & s1 & Hstore).
  simpl in Hstore. apply dbind_clean_inv in Hstore as (v & Hv & _).
  exact (decodeString_clean_inv _ _ _ Hv).
Qed.




(** *** Which fields of the receiver a decoding overwrites *)














End decode.
End codedeploy_decode.

(** * DeploymentGroup: encoding, and decoding what was encoded *)

Module codedeploy_codec.
Import codedeploy codedeploy_decode.

Section codec.
Context {Value : Type} `{!GoJSON Value}.
Context {DeploymentGroup_AlarmConfiguration : Type}
        `{!GoJSON DeploymentGroup_AlarmConfiguration}.
Context {DeploymentGroup_AutoRollbackConfiguration : Type}
        `{!GoJSON DeploymentGroup_AutoRollbackConfiguration}.
Context {DeploymentGroup_BlueGreenDeploymentConfiguration : Type}
        `{!GoJSON DeploymentGroup_BlueGreenDeploymentConfiguration}.
Context {DeploymentGroup_Deployment : Type}
        `{!GoJSON DeploymentGroup_Deployment}.
Context {DeploymentGroup_DeploymentStyle : Type}
        `{!GoJSON DeploymentGroup_DeploymentStyle}.
Context {DeploymentGroup_ECSService : Type}
        `{!GoJSON DeploymentGroup_ECSService}.
Context {DeploymentGroup_EC2TagFilter : Type}
        `{!GoJSON DeploymentGroup_EC2TagFilter}.
Context {DeploymentGroup_EC2TagSet : Type}
        `{!GoJSON DeploymentGroup_EC2TagSet}.
Context {DeploymentGroup_LoadBalancerInfo : Type}
        `{!GoJSON DeploymentGroup_LoadBalancerInfo}.
Context {DeploymentGroup_TagFilter : Type}
        `{!GoJSON DeploymentGroup_TagFilter}.
Context {DeploymentGroup_OnPremisesTagSet : Type}
        `{!GoJSON DeploymentGroup_OnPremisesTagSet}.
Context {DeploymentGroup_TriggerConfig : Type}
        `{!GoJSON DeploymentGroup_TriggerConfig}.
Context {any : Type} (valueInterface : json -> any)
        (marshalAny : any -> result json).

Abbreviation DeploymentGroup :=
  (@DeploymentGroup Value DeploymentGroup_AlarmConfiguration
     DeploymentGroup_AutoRollbackConfiguration
     DeploymentGroup_BlueGreenDeploymentConfiguration
     DeploymentGroup_Deployment DeploymentGroup_DeploymentStyle
     DeploymentGroup_ECSService DeploymentGroup_EC2TagFilter
     DeploymentGroup_EC2TagSet DeploymentGroup_LoadBalancerInfo
     DeploymentGroup_TagFilter DeploymentGroup_OnPremisesTagSet
     DeploymentGroup_TriggerConfig any).
Abbreviation envelope :=
  (@envelope Value DeploymentGroup_AlarmConfiguration
     DeploymentGroup_AutoRollbackConfiguration
     DeploymentGroup_BlueGreenDeploymentConfiguration
     DeploymentGroup_Deployment DeploymentGroup_DeploymentStyle
     DeploymentGroup_ECSService DeploymentGroup_EC2TagFilter
     DeploymentGroup_EC2TagSet DeploymentGroup_LoadBalancerInfo
     DeploymentGroup_TagFilter DeploymentGroup_OnPremisesTagSet
     DeploymentGroup_TriggerConfig any).
Abbreviation zeroDeploymentGroup :=
  (zeroDeploymentGroup : DeploymentGroup).
Abbreviation zeroEnvelope := (zeroEnvelope : envelope).

(** *** The vocabulary of the statements *)

(** The value the decoder gives back for [r]: empty slices and an empty
    map come back as nil. *)
Definition normalize (r : DeploymentGroup) : DeploymentGroup :=
  Build_DeploymentGroup
    (AlarmConfiguration r)
    (ApplicationName r)
    (AutoRollbackConfiguration r)
    (AutoScalingGroups r)
    (BlueGreenDeploymentConfiguration r)
    (Deployment r)
    (DeploymentConfigName r)
    (DeploymentGroupName r)
    (DeploymentStyle r)
    (normSlice (ECSServices r))
    (normSlice (Ec2TagFilters r))
    (Ec2TagSet r)
    (LoadBalancerInfo r)
    (normSlice (OnPremisesInstanceTagFilters r))
    (OnPremisesTagSet r)
    (ServiceRoleArn r)
    (normSlice (TriggerConfigurations r))
    (AWSCloudFormationDeletionPolicy r)
    (AWSCloudFormationUpdateReplacePolicy r)
    (normSlice (AWSCloudFormationDependsOn r))
    (normMap (AWSCloudFormationMetadata r))
    (AWSCloudFormationCondition r).


(** No property of [r] is set. *)
Definition noProperties (r : DeploymentGroup) : Prop :=
  AlarmConfiguration r = None
  /\ ApplicationName r = None
  /\ AutoRollbackConfiguration r = None
  /\ AutoScalingGroups r = None
  /\ BlueGreenDeploymentConfiguration r = None
  /\ Deployment r = None
  /\ DeploymentConfigName r = None
  /\ DeploymentGroupName r = None
  /\ DeploymentStyle r = None
  /\ emptySlice (ECSServices r) = true
  /\ emptySlice (Ec2TagFilters r) = true
  /\ Ec2TagSet r = None
  /\ LoadBalancerInfo r = None
  /\ emptySlice (OnPremisesInstanceTagFilters r) = true
  /\ OnPremisesTagSet r = None
  /\ ServiceRoleArn r = None
  /\ emptySlice (TriggerConfigurations r) = true.

(** Every property and every envelope field of [r] is populated: no
    pointer is nil, no slice, map or string is empty. *)
Definition populated (r : DeploymentGroup) : Prop :=
  AlarmConfiguration r <> None
  /\ ApplicationName r <> None
  /\ AutoRollbackConfiguration r <> None
  /\ AutoScalingGroups r <> None
  /\ BlueGreenDeploymentConfiguration r <> None
  /\ Deployment r <> None
  /\ DeploymentConfigName r <> None
  /\ DeploymentGroupName r <> None
  /\ DeploymentStyle r <> None
  /\ emptySlice (ECSServices r) = false
  /\ emptySlice (Ec2TagFilters r) = false
  /\ Ec2TagSet r <> None
  /\ LoadBalancerInfo r <> None
  /\ emptySlice (OnPremisesInstanceTagFilters r) = false
  /\ OnPremisesTagSet r <> None
  /\ ServiceRoleArn r <> None
  /\ emptySlice (TriggerConfigurations r) = false
  /\ AWSCloudFormationDeletionPolicy r <> ""
  /\ AWSCloudFormationUpdateReplacePolicy r <> ""
  /\ emptySlice (AWSCloudFormationDependsOn r) = false
  /\ emptyMap (AWSCloudFormationMetadata r) = false
  /\ AWSCloudFormationCondition r <> "".

(** *** The properties *)


(** *** The envelope *)

Lemma MarshalJSON_inv (r : DeploymentGroup) j :
  MarshalJSON marshalAny r = Ok j ->
  exists jp dep meta,
    marshalProperties r = Ok jp
    /\ marshalSlice "DependsOn" (AWSCloudFormationDependsOn r) = Ok dep
    /\ marshalMap marshalAny "Metadata" (AWSCloudFormationMetadata r) = Ok meta
    /\ j = JObj ([("Type", JStr "AWS::CodeDeploy::DeploymentGroup")]
                 ++ [("Properties", jp)] ++ dep ++ meta
                 ++ marshalString "DeletionPolicy" (AWSCloudFormationDeletionPolicy r)
                 ++ marshalString "UpdateReplacePolicy"
                      (AWSCloudFormationUpdateReplacePolicy r)
                 ++ marshalString "Condition" (AWSCloudFormationCondition r)
                 ++ [])%list.
Proof.
  intros Hm. unfold MarshalJSON in Hm.
  apply marshalStruct_inv in Hm as (ms & Hm & ->).
  apply marshalFields_cons_inv in Hm as (m1 & ms1 & H1 & Hm & ->).
  apply marshalFields_cons_inv in Hm as (m2 & ms2 & H2 & Hm & ->).
  apply marshalFields_cons_inv in Hm as (m3 & ms3 & H3 & Hm & ->).
  apply marshalFields_cons_inv in Hm as (m4 & ms4 & H4 & Hm & ->).
  apply marshalFields_cons_inv in Hm as (m5 & ms5 & H5 & Hm & ->).
  apply marshalFields_cons_inv in Hm as (m6 & ms6 & H6 & Hm & ->).
  apply marshalFields_cons_inv in Hm as (m7 & ms7 & H7 & Hm & ->).
  apply marshalFields_nil_inv in Hm as ->.
  injection H1 as <-. injection H5 as <-. injection H6 as <-. injection H7 as <-.
  destruct (marshalProperties r) as [jp|e]; simpl in H2; [|discriminate].
  injection H2 as <-. exists jp, m3, m4. auto.
Qed.







(** *** The shape of the encoding *)

Definition encodes {T} `{GoJSON T} (x : T) : Prop := exists j, marshalJSON x = Ok j.

Definition ptrEncodes {T} `{GoJSON T} (p : option T) : Prop :=
  forall x, p = Some x -> encodes x.

Definition sliceEncodes {T} `{GoJSON T} (s : option (list T)) : Prop :=
  forall xs, s = Some xs -> Forall encodes xs.

Definition mapEncodes (m : option (gmap string any)) : Prop :=
  forall m0 k v, m = Some m0 -> m0 !! k = Some v -> exists j, marshalAny v = Ok j.

(** Every nested value held by [r] can be encoded. *)
Definition nestedEncode (r : DeploymentGroup) : Prop :=
  ptrEncodes (AlarmConfiguration r)
  /\ ptrEncodes (ApplicationName r)
  /\ ptrEncodes (AutoRollbackConfiguration r)
  /\ ptrEncodes (AutoScalingGroups r)
  /\ ptrEncodes (BlueGreenDeploymentConfiguration r)
  /\ ptrEncodes (Deployment r)
  /\ ptrEncodes (DeploymentConfigName r)
  /\ ptrEncodes (DeploymentGroupName r)
  /\ ptrEncodes (DeploymentStyle r)
  /\ sliceEncodes (ECSServices r)
  /\ sliceEncodes (Ec2TagFilters r)
  /\ ptrEncodes (Ec2TagSet r)
  /\ ptrEncodes (LoadBalancerInfo r)
  /\ sliceEncodes (OnPremisesInstanceTagFilters r)
  /\ ptrEncodes (OnPremisesTagSet r)
  /\ ptrEncodes (ServiceRoleArn r)
  /\ sliceEncodes (TriggerConfigurations r)
  /\ mapEncodes (AWSCloudFormationMetadata r).

Lemma marshalPtr_total {T} `{GoJSON T} name (p : option T) :
  ptrEncodes p -> exists ms, marshalPtr name p = Ok ms.
Proof.
  intros Henc. destruct p as [x|]; simpl; [|eauto].
  destruct (Henc x eq_refl) as [j ->]. simpl. eauto.
Qed.

Lemma marshalElems_total {T} `{GoJSON T} (xs : list T) :
  Forall encodes xs -> exists js, marshalElems xs = Ok js.
Proof.
  induction 1 as [|x xs [j Hj] _ [js Hjs]]; simpl; [eauto|].
  rewrite Hj, Hjs. simpl. eauto.
Qed.

Lemma marshalSlice_total {T} `{GoJSON T} name (s : option (list T)) :
  sliceEncodes s -> exists ms, marshalSlice name s = Ok ms.
Proof.
  intros Henc. destruct s as [[|x xs]|]; unfold marshalSlice; [eauto| |eauto].
  destruct (marshalElems_total (x :: xs) (Henc _ eq_refl)) as [js ->]. simpl. eauto.
Qed.

Lemma marshalEntries_total (kvs : list (string * any)) :
  (forall k v, (k, v) ∈ kvs -> exists j, marshalAny v = Ok j) ->
  exists js, marshalEntries marshalAny kvs = Ok js.
Proof.
  induction kvs as [|[k v] kvs IH]; intros Henc; simpl; [eauto|].
  destruct (Henc k v) as [j ->]; [apply elem_of_cons; left; reflexivity|].
  destruct IH as [js ->]; [|simpl; eauto].
  intros k' v' Hin. apply (Henc k' v'), elem_of_cons. right. exact Hin.
Qed.

Lemma marshalMap_total name (m : option (gmap string any)) :
  mapEncodes m -> exists ms, marshalMap marshalAny name m = Ok ms.
Proof.
  intros Henc. destruct m as [m|]; unfold marshalMap; [|eauto].
  destruct (sortedEntries m) as [|kv kvs] eqn:Hsorted; [eauto|].
  destruct (marshalEntries_total (kv :: kvs)) as [js ->]; [|simpl; eauto].
  intros k v Hin. apply (Henc m k v eq_refl).
  apply elem_of_map_to_list. rewrite <- sortedEntries_Permutation, Hsorted.
  exact Hin.
Qed.

Lemma marshalFields_total fs :
  Forall (fun f => exists ms, f = Ok ms) fs -> exists ms, marshalFields fs = Ok ms.
Proof.
  induction 1 as [|f fs [m ->] _ [ms Hms]]; simpl; [eauto|].
  rewrite Hms. simpl. eauto.
Qed.

Lemma marshalProperties_total (r : DeploymentGroup) :
  nestedEncode r -> exists ps, marshalProperties r = Ok (JObj ps).
Proof.
  intros (E1 & E2 & E3 & E4 & E5 & E6 & E7 & E8 & E9 & E10 & E11 & E12 & E13 & E14 & E15 & E16 & E17 & _).
  unfold marshalProperties, marshalStruct.
  destruct (marshalFields_total
              [ marshalPtr "AlarmConfiguration" (AlarmConfiguration r);
                marshalPtr "ApplicationName" (ApplicationName r);
                marshalPtr "AutoRollbackConfiguration" (AutoRollbackConfiguration r);
                marshalPtr "AutoScalingGroups" (AutoScalingGroups r);
                marshalPtr "BlueGreenDeploymentConfiguration" (BlueGreenDeploymentConfiguration r);
                marshalPtr "Deployment" (Deployment r);
                marshalPtr "DeploymentConfigName" (DeploymentConfigName r);
                marshalPtr "DeploymentGroupName" (DeploymentGroupName r);
                marshalPtr "DeploymentStyle" (DeploymentStyle r);
                marshalSlice "ECSServices" (ECSServices r);
                marshalSlice "Ec2TagFilters" (Ec2TagFilters r);
                marshalPtr "Ec2TagSet" (Ec2TagSet r);
                marshalPtr "LoadBalancerInfo" (LoadBalancerInfo r);
                marshalSlice "OnPremisesInstanceTagFilters" (OnPremisesInstanceTagFilters r);
                marshalPtr "OnPremisesTagSet" (OnPremisesTagSet r);
                marshalPtr "ServiceRoleArn" (ServiceRoleArn r);
                marshalSlice "TriggerConfigurations" (TriggerConfigurations r) ])
    as [ms ->]; [|simpl; eauto].
  repeat (apply Forall_cons_2;
          [first [apply marshalPtr_total; assumption
                 |apply marshalSlice_total; assumption]|]).
  apply Forall_nil_2.
Qed.

Lemma marshalProperties_empty (r : DeploymentGroup) :
  noProperties r -> marshalProperties r = Ok (JObj []).
Proof.
  intros (N1 & N2 & N3 & N4 & N5 & N6 & N7 & N8 & N9 & N10 & N11 & N12 & N13 & N14 & N15 & N16 & N17).
  destruct r; simpl in *; subst.
  repeat match goal with
         | H : emptySlice ?s = true |- _ =>
             destruct s as [[|? ?]|]; [clear H|discriminate H|clear H]
         end; reflexivity.
Qed.

Lemma marshalSlice_keys {T} `{GoJSON T} name (s : option (list T)) ms :
  marshalSlice name s = Ok ms ->
  ms.*1 = if emptySlice s then [] else [name].
Proof.
  destruct s as [[|x xs]|]; unfold marshalSlice; try (intros [= <-]; reflexivity).
  destruct (marshalElems (x :: xs)) as [js|e]; simpl; [|discriminate].
  intros [= <-]. reflexivity.
Qed.

Lemma marshalMap_keys name (m : option (gmap string any)) ms :
  marshalMap marshalAny name m = Ok ms ->
  ms.*1 = if emptyMap m then [] else [name].
Proof.
  destruct m as [m|]; unfold marshalMap, emptyMap; [|intros [= <-]; reflexivity].
  destruct (sortedEntries m) as [|kv kvs] eqn:Hsorted.
  - intros [= <-]. apply sortedEntries_nil in Hsorted. rewrite Hsorted. reflexivity.
  - assert (Hsize : size m <> 0).
    { rewrite <- sortedEntries_nil, Hsorted. discriminate. }
    apply Nat.eqb_neq in Hsize. rewrite Hsize.
    destruct (marshalEntries marshalAny (kv :: kvs)) as [js|e]; simpl; [|discriminate].
    intros [= <-]. reflexivity.
Qed.

Lemma marshalString_keys name str :
  (marshalString name str).*1 = if String.eqb str "" then [] else [name].
Proof. unfold marshalString. destruct (String.eqb str ""); reflexivity. Qed.

Lemma MarshalJSON_keys (r : DeploymentGroup) j :
  MarshalJSON marshalAny r = Ok j ->
  keys j
  = (["Type"; "Properties"]
     ++ (if emptySlice (AWSCloudFormationDependsOn r) then [] else ["DependsOn"])
     ++ (if emptyMap (AWSCloudFormationMetadata r) then [] else ["Metadata"])
     ++ (if String.eqb (AWSCloudFormationDeletionPolicy r) ""
         then [] else ["DeletionPolicy"])
     ++ (if String.eqb (AWSCloudFormationUpdateReplacePolicy r) ""
         then [] else ["UpdateReplacePolicy"])
     ++ (if String.eqb (AWSCloudFormationCondition r) ""
         then [] else ["Condition"]))%list.
Proof.
  intros Hm.
  apply MarshalJSON_inv in Hm as (jp & dep & meta & Hjp & Hdep & Hmeta & ->).
  unfold keys. rewrite !fmap_app, (marshalSlice_keys _ _ _ Hdep),
    (marshalMap_keys _ _ _ Hmeta), !marshalString_keys, app_nil_r.
  reflexivity.
Qed.

(** C6: when the nested values of [r] can be encoded, [MarshalJSON]
    produces an object; its keys are Type and Properties, followed by each
    of DependsOn, Metadata, DeletionPolicy, UpdateReplacePolicy and
    Condition exactly when that field of [r] is not empty; Type holds the
    resource type and Properties an object, which is the empty object
    when no property is set. *)
Theorem MarshalJSON_shape (r : DeploymentGroup) :
  (nestedEncode r -> exists j, MarshalJSON marshalAny r = Ok j)
  /\ forall j, MarshalJSON marshalAny r = Ok j ->
       keys j
       = (["Type"; "Properties"]
          ++ (if emptySlice (AWSCloudFormationDependsOn r) then [] else ["DependsOn"])
          ++ (if emptyMap (AWSCloudFormationMetadata r) then [] else ["Metadata"])
          ++ (if String.eqb (AWSCloudFormationDeletionPolicy r) ""
              then [] else ["DeletionPolicy"])
          ++ (if String.eqb (AWSCloudFormationUpdateReplacePolicy r) ""
              then [] else ["UpdateReplacePolicy"])
          ++ (if String.eqb (AWSCloudFormationCondition r) ""
              then [] else ["Condition"]))%list
       /\ member "Type" j = Some (JStr "AWS::CodeDeploy::DeploymentGroup")
       /\ exists ps, member "Properties" j = Some (JObj ps)
                     /\ (noProperties r -> ps = []).
Proof.
  split.
  - intros Henc. destruct (marshalProperties_total r Henc) as [ps Hps].
    assert (Hsl : sliceEncodes (AWSCloudFormationDependsOn r)).
    { intros xs _. apply Forall_forall. intros x _. exists (JStr x). reflexivity. }
    destruct (marshalSlice_total "DependsOn" _ Hsl) as [dep Hdep].
    destruct (marshalMap_total "Metadata" (AWSCloudFormationMetadata r)) as [meta Hmeta].
    { apply Henc. }
    unfold MarshalJSON, marshalStruct. simpl. rewrite Hps, Hdep, Hmeta. simpl. eauto.
  - intros j Hm. split; [exact (MarshalJSON_keys r j Hm)|].
    apply MarshalJSON_inv in Hm as (jp & dep & meta & Hjp & Hdep & Hmeta & ->).
    pose proof Hjp as Hobj. unfold marshalProperties in Hobj.
    apply marshalStruct_inv in Hobj as (ps & _ & ->).
    split; [reflexivity|].
    exists ps. split; [reflexivity|]. intros Hnone.
    rewrite (marshalProperties_empty r Hnone) in Hjp. congruence.
Qed.

(** *** Round trips *)





End codec.
End codedeploy_codec.

(** * The property types: the five envelope fields are not part of the codec *)

(** The names under which the envelope fields would appear in JSON: the
    wire names of the resource envelope, and the names of the Go fields. *)
Definition envelopeKeys : list string :=
  [ "DeletionPolicy"; "UpdateReplacePolicy"; "DependsOn"; "Metadata"; "Condition";
    "AWSCloudFormationDeletionPolicy"; "AWSCloudFormationUpdateReplacePolicy";
    "AWSCloudFormationDependsOn"; "AWSCloudFormationMetadata";
    "AWSCloudFormationCondition" ].

Lemma marshalPtr_keys {T} `{GoJSON T} name (p : option T) ms k :
  marshalPtr name p = Ok ms -> k ∈ ms.*1 -> k = name.
Proof.
  destruct p as [x|]; simpl.
  - destruct (marshalJSON x) as [j|e]; simpl; [|discriminate].
    intros [= <-] Hin. simpl in Hin. apply list_elem_of_singleton in Hin. exact Hin.
  - intros [= <-] Hin. inversion Hin.
Qed.

Lemma marshalSlice_key {T} `{GoJSON T} name (s : option (list T)) ms k :
  marshalSlice name s = Ok ms -> k ∈ ms.*1 -> k = name.
Proof.
  destruct s as [[|x xs]|]; unfold marshalSlice;
    try (intros [= <-] Hin; inversion Hin).
  destruct (marshalElems (x :: xs)) as [js|e]; simpl; [|discriminate].
  intros [= <-] Hin. simpl in Hin. apply list_elem_of_singleton in Hin. exact Hin.
Qed.

Lemma marshalFields_keys fs ms (names : list string) k :
  marshalFields fs = Ok ms ->
  Forall (fun f => forall m k, f = Ok m -> k ∈ m.*1 -> k ∈ names) fs ->
  k ∈ ms.*1 -> k ∈ names.
Proof.
  revert ms. induction fs as [|f fs IH]; intros ms Hm Hall Hin.
  - apply marshalFields_nil_inv in Hm as ->. inversion Hin.
  - apply marshalFields_cons_inv in Hm as (m1 & m2 & -> & Hm2 & ->).
    inversion Hall as [|? ? Hf Hfs]; subst.
    rewrite fmap_app in Hin. apply elem_of_app in Hin as [Hin|Hin].
    + exact (Hf m1 k eq_refl Hin).
    + exact (IH m2 Hm2 Hfs Hin).
Qed.

Lemma decodeStruct_frame {F S A} d (fields : list (string * F))
    (store : F -> json -> S -> decoder S) (get : S -> A) target j s s' saved :
  (forall f j s s' saved, store f j s = Ok (s', saved) -> get s' = get s) ->
  decodeStruct d fields store target j s = Ok (s', saved) ->
  get s' = get s.
Proof.
  intros Hstore. destruct j; simpl; try (intros [= <- _]; reflexivity).
  intros Hdec.
  apply (decodeMembers_frame d fields store get (fun _ => False) members)
    in Hdec; [exact Hdec| |].
  - intros f j s0 s1 sv _. apply Hstore.
  - intros key f _ _ [].
Qed.

Lemma envelopeKeys_not_property names k :
  forallb (fun name => negb (existsb (String.eqb name) envelopeKeys)) names = true ->
  k ∈ names -> k ∉ envelopeKeys.
Proof.
  intros Hall Hin Henv. rewrite forallb_forall in Hall.
  apply list_elem_of_In in Hin. specialize (Hall k Hin).
  apply negb_true_iff in Hall.
  assert (Hex : existsb (String.eqb k) envelopeKeys = true).
  { apply existsb_exists. exists k. split; [apply list_elem_of_In, Henv|].
    apply String.eqb_refl. }
  congruence.
Qed.


Module glue_codec.
Import glue.

Section MLTransform_InputRecordTables.
Context {MLTransform_GlueTables : Type} `{!GoJSON MLTransform_GlueTables}.
Context {any : Type}.

Abbreviation MLTransform_InputRecordTables := (@MLTransform_InputRecordTables MLTransform_GlueTables any).

(** The five envelope fields of a value. *)
Definition envelopeOf (v : MLTransform_InputRecordTables)
  : string * string * option (list string) * option (gmap string any) * string :=
  (AWSCloudFormationDeletionPolicy v, AWSCloudFormationUpdateReplacePolicy v,
   AWSCloudFormationDependsOn v, AWSCloudFormationMetadata v,
   AWSCloudFormationCondition v).

Lemma glue_marshal_keys (v : MLTransform_InputRecordTables) j k :
  marshal v = Ok j -> k ∈ keys j -> k ∈ properties.*1 /\ k ∉ envelopeKeys.
Proof.
  intros Hm Hin. unfold marshal in Hm.
  apply marshalStruct_inv in Hm as (ms & Hm & ->). simpl in Hin.
  assert (Hprop : k ∈ properties.*1).
  { apply (marshalFields_keys _ _ _ _ Hm); [|exact Hin].
    repeat (apply Forall_cons_2;
            [intros m k' Hf Hk;
             first [apply (marshalPtr_keys _ _ _ _ Hf) in Hk
                   |apply (marshalSlice_key _ _ _ _ Hf) in Hk];
             subst k'; simpl; rewrite list_elem_of_In; simpl; tauto|]).
    apply Forall_nil_2. }
  split; [exact Hprop|].
  apply (envelopeKeys_not_property properties.*1); [reflexivity|exact Hprop].
Qed.

Lemma glue_decodeProperty_frame f j (v v' : MLTransform_InputRecordTables) saved :
  decodeProperty f j v = Ok (v', saved) -> envelopeOf v' = envelopeOf v.
Proof.
  intros Hdec.
  destruct f; simpl in Hdec;
    apply dbind_ok_inv in Hdec as (x & s1 & s2 & _ & [= <- _]);
    destruct v; reflexivity.
Qed.

Lemma glue_unmarshal_frame d j (v v' : MLTransform_InputRecordTables) saved :
  unmarshal d j v = Ok (v', saved) -> envelopeOf v' = envelopeOf v.
Proof.
  apply decodeStruct_frame. intros f j0 s s' sv.
  apply glue_decodeProperty_frame.
Qed.

End MLTransform_InputRecordTables.
End glue_codec.


Module ecs_codec.
Import ecs.

Section Service_DeploymentController.
Context {Value : Type} `{!GoJSON Value}.
Context {any : Type}.

Abbreviation Service_DeploymentController := (@Service_DeploymentController Value any).

(** The five envelope fields of a value. *)
Definition envelopeOf (v : Service_DeploymentController)
  : string * string * option (list string) * option (gmap string any) * string :=
  (AWSCloudFormationDeletionPolicy v, AWSCloudFormationUpdateReplacePolicy v,
   AWSCloudFormationDependsOn v, AWSCloudFormationMetadata v,
   AWSCloudFormationCondition v).

Lemma ecs_marshal_keys (v : Service_DeploymentController) j k :
  marshal v = Ok j -> k ∈ keys j -> k ∈ properties.*1 /\ k ∉ envelopeKeys.
Proof.
  intros Hm Hin. unfold marshal in Hm.
  apply marshalStruct_inv in Hm as (ms & Hm & ->). simpl in Hin.
  assert (Hprop : k ∈ properties.*1).
  { apply (marshalFields_keys _ _ _ _ Hm); [|exact Hin].
    repeat (apply Forall_cons_2;
            [intros m k' Hf Hk;
             first [apply (marshalPtr_keys _ _ _ _ Hf) in Hk
                   |apply (marshalSlice_key _ _ _ _ Hf) in Hk];
             subst k'; simpl; rewrite list_elem_of_In; simpl; tauto|]).
    apply Forall_nil_2. }
  split; [exact Hprop|].
  apply (envelopeKeys_not_property properties.*1); [reflexivity|exact Hprop].
Qed.

Lemma ecs_decodeProperty_frame f j (v v' : Service_DeploymentController) saved :
  decodeProperty f j v = Ok (v', saved) -> envelopeOf v' = envelopeOf v.
Proof.
  intros Hdec.
  destruct f; simpl in Hdec;
    apply dbind_ok_inv in Hdec as (x & s1 & s2 & _ & [= <- _]);
    destruct v; reflexivity.
Qed.

Lemma ecs_unmarshal_frame d j (v v' : Service_DeploymentController) saved :
  unmarshal d j v = Ok (v', saved) -> envelopeOf v' = envelopeOf v.
Proof.
  apply decodeStruct_frame. intros f j0 s s' sv.
  apply ecs_decodeProperty_frame.
Qed.

End Service_DeploymentController.
End ecs_codec.


Module cognito_codec.
Import cognito.

Section UserPoolRiskConfigurationAttachment_NotifyConfigurationType.
Context {Value : Type} `{!GoJSON Value}.
Context {UserPoolRiskConfigurationAttachment_NotifyEmailType : Type} `{!GoJSON UserPoolRiskConfigurationAttachment_NotifyEmailType}.
Context {any : Type}.

Abbreviation UserPoolRiskConfigurationAttachment_NotifyConfigurationType := (@UserPoolRiskConfigurationAttachment_NotifyConfigurationType Value UserPoolRiskConfigurationAttachment_NotifyEmailType any).

(** The five envelope fields of a value. *)
Definition envelopeOf (v : UserPoolRiskConfigurationAttachment_NotifyConfigurationType)
  : string * string * option (list string) * option (gmap string any) * string :=
  (AWSCloudFormationDeletionPolicy v, AWSCloudFormationUpdateReplacePolicy v,
   AWSCloudFormationDependsOn v, AWSCloudFormationMetadata v,
   AWSCloudFormationCondition v).

Lemma cognito_marshal_keys (v : UserPoolRiskConfigurationAttachment_NotifyConfigurationType) j k :
  marshal v = Ok j -> k ∈ keys j -> k ∈ properties.*1 /\ k ∉ envelopeKeys.
Proof.
  intros Hm Hin. unfold marshal in Hm.
  apply marshalStruct_inv in Hm as (ms & Hm & ->). simpl in Hin.
  assert (Hprop : k ∈ properties.*1).
  { apply (marshalFields_keys _ _ _ _ Hm); [|exact Hin].
    repeat (apply Forall_cons_2;
            [intros m k' Hf Hk;
             first [apply (marshalPtr_keys _ _ _ _ Hf) in Hk
                   |apply (marshalSlice_key _ _ _ _ Hf) in Hk];
             subst k'; simpl; rewrite list_elem_of_In; simpl; tauto|]).
    apply Forall_nil_2. }
  split; [exact Hprop|].
  apply (envelopeKeys_not_property properties.*1); [reflexivity|exact Hprop].
Qed.

Lemma cognito_decodeProperty_frame f j (v v' : UserPoolRiskConfigurationAttachment_NotifyConfigurationType) saved :
  decodeProperty f j v = Ok (v', saved) -> envelopeOf v' = envelopeOf v.
Proof.
  intros Hdec.
  destruct f; simpl in Hdec;
    apply dbind_ok_inv in Hdec as (x & s1 & s2 & _ & [= <- _]);
    destruct v; reflexivity.
Qed.

Lemma cognito_unmarshal_frame d j (v v' : UserPoolRiskConfigurationAttachment_NotifyConfigurationType) saved :
  unmarshal d j v = Ok (v', saved) -> envelopeOf v' = envelopeOf v.
Proof.
  apply decodeStruct_frame. intros f j0 s s' sv.
  apply cognito_decodeProperty_frame.
Qed.

End UserPoolRiskConfigurationAttachment_NotifyConfigurationType.
End cognito_codec.

Section subtypes.
Context {Value : Type} `{!GoJSON Value}.
Context {MLTransform_GlueTables : Type} `{!GoJSON MLTransform_GlueTables}.
Context {UserPoolRiskConfigurationAttachment_NotifyEmailType : Type}
        `{!GoJSON UserPoolRiskConfigurationAttachment_NotifyEmailType}.
Context {any : Type}.

Abbreviation InputRecordTables :=
  (@glue.MLTransform_InputRecordTables MLTransform_GlueTables any).
Abbreviation DeploymentController :=
  (@ecs.Service_DeploymentController Value any).
Abbreviation NotifyConfigurationType :=
  (@cognito.UserPoolRiskConfigurationAttachment_NotifyConfigurationType
     Value UserPoolRiskConfigurationAttachment_NotifyEmailType any).

(** C10: a property type of packages glue, ecs and cognito is encoded
    without any of the five envelope fields (no key of the encoding names
    one), decoding leaves the five fields of the target as they were, and
    so decoding an encoding into a zero value gives zero envelope fields,
    whatever the encoded value held. *)
Theorem subtype_envelope_fields_excluded :
  (forall v : InputRecordTables,
      (forall j k, glue.marshal v = Ok j -> k ∈ keys j -> k ∉ envelopeKeys)
      /\ (forall d j (v' : InputRecordTables) saved,
            glue.unmarshal d j v = Ok (v', saved) ->
            glue_codec.envelopeOf v' = glue_codec.envelopeOf v)
      /\ (forall d j (v' : InputRecordTables) saved,
            glue.marshal v = Ok j ->
            glue.unmarshal d j glue.zeroStruct = Ok (v', saved) ->
            glue_codec.envelopeOf v' = ("", "", None, None, "")))
  /\ (forall v : DeploymentController,
        (forall j k, ecs.marshal v = Ok j -> k ∈ keys j -> k ∉ envelopeKeys)
        /\ (forall d j (v' : DeploymentController) saved,
              ecs.unmarshal d j v = Ok (v', saved) ->
              ecs_codec.envelopeOf v' = ecs_codec.envelopeOf v)
        /\ (forall d j (v' : DeploymentController) saved,
              ecs.marshal v = Ok j ->
              ecs.unmarshal d j ecs.zeroStruct = Ok (v', saved) ->
              ecs_codec.envelopeOf v' = ("", "", None, None, "")))
  /\ (forall v : NotifyConfigurationType,
        (forall j k, cognito.marshal v = Ok j -> k ∈ keys j -> k ∉ envelopeKeys)
        /\ (forall d j (v' : NotifyConfigurationType) saved,
              cognito.unmarshal d j v = Ok (v', saved) ->
              cognito_codec.envelopeOf v' = cognito_codec.envelopeOf v)
        /\ (forall d j (v' : NotifyConfigurationType) saved,
              cognito.marshal v = Ok j ->
              cognito.unmarshal d j cognito.zeroStruct = Ok (v', saved) ->
              cognito_codec.envelopeOf v' = ("", "", None, None, ""))).
Proof.
  repeat split.
  - intros j k Hm Hin. exact (proj2 (glue_codec.glue_marshal_keys v j k Hm Hin)).
  - intros d j v' saved. apply glue_codec.glue_unmarshal_frame.
  - intros d j v' saved _ Hdec.
    apply (glue_codec.glue_unmarshal_frame d j glue.zeroStruct v' saved Hdec).
  - intros j k Hm Hin. exact (proj2 (ecs_codec.ecs_marshal_keys v j k Hm Hin)).
  - intros d j v' saved. apply ecs_codec.ecs_unmarshal_frame.
  - intros d j v' saved _ Hdec.
    apply (ecs_codec.ecs_unmarshal_frame d j ecs.zeroStruct v' saved Hdec).
  - intros j k Hm Hin.
    exact (proj2 (cognito_codec.cognito_marshal_keys v j k Hm Hin)).
  - intros d j v' saved. apply cognito_codec.cognito_unmarshal_frame.
  - intros d j v' saved _ Hdec.
    apply (cognito_codec.cognito_unmarshal_frame d j cognito.zeroStruct v' saved Hdec).
Qed.

End subtypes.

(** * The theorems at concrete inputs *)

Module checks.
Import codedeploy example.

Definition resourceType : string := "AWS::CodeDeploy::DeploymentGroup".

(** What [MarshalJSON] makes of [populated]. *)
Definition encodedPopulated : json :=
  Eval vm_compute in
    match MarshalJSON populated with
    | Ok j => j
    | Err _ => JNull
    end.


Lemma roundtrips_controller t : roundtrips (controller t).
Proof. intros j [= <-]. reflexivity. Qed.




(** The JSON value null stores nil in [res], and the first use of [res]
    panics. *)
Example UnmarshalJSON_null : UnmarshalJSON JNull populated = Panicked.
Proof. reflexivity. Qed.

(** Any other value that is not an object is a type mismatch. *)
Example UnmarshalJSON_array :
  UnmarshalJSON (JArr []) populated
  = Returned populated (Some (UnmarshalTypeError "array" "struct")).
Proof. reflexivity. Qed.




(** C3: an object without a Type member is accepted. *)
Lemma missing_Type_counterexample :
  member "Type" (JObj [("Properties", JObj [("ApplicationName", JStr "app");
                                            ("ServiceRoleArn", JStr "arn")])])
  = None
  /\ UnmarshalJSON
       (JObj [("Properties", JObj [("ApplicationName", JStr "app");
                                   ("ServiceRoleArn", JStr "arn")])])
       zeroValue
     = Returned (set_ServiceRoleArn (Some "arn")
                   (set_ApplicationName (Some "app") zeroValue)) None
  /\ UnmarshalJSON (JObj []) zeroValue = Returned zeroValue None.
Proof. repeat split; vm_compute; reflexivity. Qed.

Lemma accepted_Type_witness :
  (JStr resourceType = JNull \/ exists s, JStr resourceType = JStr s)
  /\ UnmarshalJSON (JObj []) zeroValue = Returned zeroValue None.
Proof.
  apply (codedeploy_decode.accepted_Type_is_string valueInterface
           [("Type", JStr resourceType); ("Condition", JStr "IsProd")]
           "Type" (JStr resourceType) zeroValue
           (set_AWSCloudFormationCondition "IsProd" zeroValue)).
  - vm_compute. reflexivity.
  - apply elem_of_cons. left. reflexivity.
  - vm_compute. reflexivity.
Defined.





(** C6 at [populated]. *)
Lemma MarshalJSON_shape_witness :
  keys encodedPopulated
  = ["Type"; "Properties"; "DependsOn"; "Metadata"; "DeletionPolicy";
     "UpdateReplacePolicy"; "Condition"].
Proof.
  destruct (codedeploy_codec.MarshalJSON_shape marshalAny populated) as [_ Hshape].
  destruct (Hshape encodedPopulated) as (Hkeys & _); [vm_compute; reflexivity|].
  exact Hkeys.
Defined.






(** C10 at a DeploymentController whose envelope fields are set. *)
Lemma subtype_witness :
  ecs_codec.envelopeOf (controller "ECS") = ("", "", None, None, "").
Proof.
  destruct (subtype_envelope_fields_excluded
              (Value := Value) (MLTransform_GlueTables := string)
              (UserPoolRiskConfigurationAttachment_NotifyEmailType := string)
              (any := any)) as (_ & Hecs & _).
  destruct (Hecs (ecs.Build_Service_DeploymentController (Some "ECS") "Retain" ""
                    (Some ["A"]) None "IsProd")) as (_ & _ & Hzero).
  apply (Hzero true (JObj [("Type", JStr "ECS")]) (controller "ECS") None);
    reflexivity.
Defined.

End checks.

(** * Further properties of the codec *)

(** ** Laws of the decoder monad *)

Lemma firstError_assoc (a b c : option error) :
  firstError (firstError a b) c = firstError a (firstError b c).
Proof. destruct a; reflexivity. Qed.

Lemma dbind_assoc {A B C} (c : decoder A) (k : A -> decoder B) (h : B -> decoder C) :
  dbind (dbind c k) h = dbind c (fun a => dbind (k a) h).
Proof.
  unfold dbind. destruct c as [[a s]|e]; [|reflexivity].
  destruct (k a) as [[b s']|e]; [|reflexivity].
  destruct (h b) as [[x s'']|e]; [|reflexivity].
  rewrite firstError_assoc. reflexivity.
Qed.

Lemma dbind_ext {A B} (c : decoder A) (k k' : A -> decoder B) :
  (forall a, k a = k' a) -> dbind c k = dbind c k'.
Proof.
  intros Hk. unfold dbind. destruct c as [[a s]|e]; [|reflexivity].
  rewrite Hk. reflexivity.
Qed.

Lemma dbind_dret_r {A} (c : decoder A) : dbind c dret = c.
Proof.
  unfold dbind, dret. destruct c as [[a [e|]]|e]; reflexivity.
Qed.

(** Decoding the members of an object is decoding a first part of them
    and then the rest, saved errors included. *)
Lemma decodeMembers_app {F S} d (fields : list (string * F))
    (store : F -> json -> S -> decoder S) l1 l2 s :
  decodeMembers d fields store (l1 ++ l2) s
  = dbind (decodeMembers d fields store l1 s)
          (fun s' => decodeMembers d fields store l2 s').
Proof.
  revert s. induction l1 as [|[key j] l1 IH]; intros s; simpl.
  - rewrite dbind_dret. reflexivity.
  - destruct (findField fields key) as [f|]; rewrite dbind_assoc;
      apply dbind_ext; intros a; apply IH.
Qed.

(** [dmap g c] applies [g] to the value a decoding step yields. *)
Definition dmap {A B} (g : A -> B) (c : decoder A) : decoder B :=
  match c with
  | Ok (a, saved) => Ok (g a, saved)
  | Err e => Err e
  end.

Lemma dmap_dbind {A B C} (g : B -> C) (c : decoder A) (k : A -> decoder B) :
  dmap g (dbind c k) = dbind c (fun a => dmap g (k a)).
Proof.
  unfold dmap, dbind. destruct c as [[a s]|e]; [|reflexivity].
  destruct (k a) as [[b s']|e]; reflexivity.
Qed.

(** If two steps agree up to [g], and so do the continuations on values
    that agree up to [g], the sequences agree up to [g]. *)
Lemma dmap_dbind_cong {A B} (g : A -> A) (g' : B -> B) (c c' : decoder A)
    (k k' : A -> decoder B) :
  dmap g c = dmap g c' ->
  (forall a a', g a = g a' -> dmap g' (k a) = dmap g' (k' a')) ->
  dmap g' (dbind c k) = dmap g' (dbind c' k').
Proof.
  intros Hc Hk. rewrite !dmap_dbind. unfold dmap in Hc. unfold dbind.
  destruct c as [[a s]|e], c' as [[a' s0]|e']; try discriminate.
  - injection Hc as Hg <-. rewrite (Hk a a' Hg). reflexivity.
  - injection Hc as <-. reflexivity.
Qed.

Lemma decodeMembers_cons_some {F S} d (fields : list (string * F))
    (store : F -> json -> S -> decoder S) key j ms s f :
  findField fields key = Some f ->
  decodeMembers d fields store ((key, j) :: ms) s
  = dbind (store f j s) (fun s' => decodeMembers d fields store ms s').
Proof. intros Hf. simpl. rewrite Hf. reflexivity. Qed.

(** ** DeploymentGroup: edge cases of decoding *)

Module codedeploy_edges.
Import codedeploy codedeploy_decode codedeploy_codec.

Section edges.
Context {Value : Type} `{!GoJSON Value}.
Context {DeploymentGroup_AlarmConfiguration : Type}
        `{!GoJSON DeploymentGroup_AlarmConfiguration}.
Context {DeploymentGroup_AutoRollbackConfiguration : Type}
        `{!GoJSON DeploymentGroup_AutoRollbackConfiguration}.
Context {DeploymentGroup_BlueGreenDeploymentConfiguration : Type}
        `{!GoJSON DeploymentGroup_BlueGreenDeploymentConfiguration}.
Context {DeploymentGroup_Deployment : Type}
        `{!GoJSON DeploymentGroup_Deployment}.
Context {DeploymentGroup_DeploymentStyle : Type}
        `{!GoJSON DeploymentGroup_DeploymentStyle}.
Context {DeploymentGroup_ECSService : Type}
        `{!GoJSON DeploymentGroup_ECSService}.
Context {DeploymentGroup_EC2TagFilter : Type}
        `{!GoJSON DeploymentGroup_EC2TagFilter}.
Context {DeploymentGroup_EC2TagSet : Type}
        `{!GoJSON DeploymentGroup_EC2TagSet}.
Context {DeploymentGroup_LoadBalancerInfo : Type}
        `{!GoJSON DeploymentGroup_LoadBalancerInfo}.
Context {DeploymentGroup_TagFilter : Type}
        `{!GoJSON DeploymentGroup_TagFilter}.
Context {DeploymentGroup_OnPremisesTagSet : Type}
        `{!GoJSON DeploymentGroup_OnPremisesTagSet}.
Context {DeploymentGroup_TriggerConfig : Type}
        `{!GoJSON DeploymentGroup_TriggerConfig}.
Context {any : Type} (valueInterface : json -> any)
        (marshalAny : any -> result json).

Abbreviation DeploymentGroup :=
  (@DeploymentGroup Value DeploymentGroup_AlarmConfiguration
     DeploymentGroup_AutoRollbackConfiguration
     DeploymentGroup_BlueGreenDeploymentConfiguration
     DeploymentGroup_Deployment DeploymentGroup_DeploymentStyle
     DeploymentGroup_ECSService DeploymentGroup_EC2TagFilter
     DeploymentGroup_EC2TagSet DeploymentGroup_LoadBalancerInfo
     DeploymentGroup_TagFilter DeploymentGroup_OnPremisesTagSet
     DeploymentGroup_TriggerConfig any).
Abbreviation envelope :=
  (@envelope Value DeploymentGroup_AlarmConfiguration
     DeploymentGroup_AutoRollbackConfiguration
     DeploymentGroup_BlueGreenDeploymentConfiguration
     DeploymentGroup_Deployment DeploymentGroup_DeploymentStyle
     DeploymentGroup_ECSService DeploymentGroup_EC2TagFilter
     DeploymentGroup_EC2TagSet DeploymentGroup_LoadBalancerInfo
     DeploymentGroup_TagFilter DeploymentGroup_OnPremisesTagSet
     DeploymentGroup_TriggerConfig any).
Abbreviation zeroEnvelope :=
  (@zeroEnvelope Value DeploymentGroup_AlarmConfiguration
     DeploymentGroup_AutoRollbackConfiguration
     DeploymentGroup_BlueGreenDeploymentConfiguration
     DeploymentGroup_Deployment DeploymentGroup_DeploymentStyle
     DeploymentGroup_ECSService DeploymentGroup_EC2TagFilter
     DeploymentGroup_EC2TagSet DeploymentGroup_LoadBalancerInfo
     DeploymentGroup_TagFilter DeploymentGroup_OnPremisesTagSet
     DeploymentGroup_TriggerConfig any).
Abbreviation decodeEnvelope ms :=
  (decodeMembers true envelopeFields (decodeEnvelopeField valueInterface)
     ms zeroEnvelope).


(** How [UnmarshalJSON] ends once the members are decoded. *)
Definition finish (r : DeploymentGroup) (c : decoder envelope) : outcome :=
  match c with
  | Ok (res, None) => Returned (assign res r) None
  | Ok (_, Some e) => Returned r (Some e)
  | Err e => Returned r (Some e)
  end.

Lemma UnmarshalJSON_finish ms (r : DeploymentGroup) :
  UnmarshalJSON valueInterface (JObj ms) r = finish r (decodeEnvelope ms).
Proof. apply UnmarshalJSON_object. Qed.

(** X1: [UnmarshalJSON] panics exactly on the JSON value null; whenever it
    returns an error, the receiver is as it was; and a value that is
    neither null nor an object is a type mismatch that names its kind. *)
Theorem UnmarshalJSON_outcomes b (r : DeploymentGroup) :
  (UnmarshalJSON valueInterface b r = Panicked <-> b = JNull)
  /\ (forall r' e, UnmarshalJSON valueInterface b r = Returned r' (Some e) -> r' = r)
  /\ ((forall ms, b <> JObj ms) -> b <> JNull ->
      UnmarshalJSON valueInterface b r
      = Returned r (Some (UnmarshalTypeError (kindOf b) "struct"))).
Proof.
  destruct b as [|x|x|x|x|ms].
  6:{ rewrite UnmarshalJSON_finish. unfold finish.
      destruct (decodeEnvelope ms) as [[res [e|]]|e]; repeat split;
        try discriminate; try congruence.
      all: intros Hobj; destruct (Hobj ms); reflexivity. }
  all: repeat split; try discriminate; try congruence; try reflexivity.
  all: intros r' e Hret; vm_compute in Hret; congruence.
Qed.

(** X4: a null member in front of the others, under the name of any of
    the seven fields, changes nothing. *)
Theorem leading_null_member_ignored key f ms (r : DeploymentGroup) :
  findField envelopeFields key = Some f ->
  UnmarshalJSON valueInterface (JObj ((key, JNull) :: ms)) r
  = UnmarshalJSON valueInterface (JObj ms) r.
Proof.
  intros Hf. rewrite !UnmarshalJSON_finish.
  rewrite (decodeMembers_cons_some _ _ _ _ _ _ _ _ Hf).
  assert (Hnull : decodeEnvelopeField valueInterface f JNull zeroEnvelope
                  = dret zeroEnvelope) by (destruct f; reflexivity).
  rewrite Hnull, dbind_dret. reflexivity.
Qed.

(** X5: the strictness reaches into Properties: an object whose
    Properties has a member that selects none of the seventeen property
    fields is rejected, and the receiver is left as it was. *)
Theorem unknown_property_rejected ms key ps k j (r : DeploymentGroup) :
  (key, JObj ps) ∈ ms ->
  findField envelopeFields key = Some E_Properties ->
  (k, j) ∈ ps ->
  findField properties k = None ->
  exists e, UnmarshalJSON valueInterface (JObj ms) r = Returned r (Some e).
Proof.
  intros Hin Hsel Hk Hnone. apply UnmarshalJSON_object_rejected. intros res Hdec.
  pose proof (decodeMembers_clean_inv _ _ _ _ _ _ _ _ Hdec Hin) as Hstore.
  rewrite Hsel in Hstore. destruct Hstore as (s0 & s1 & Hstore).
  simpl in Hstore. apply dbind_clean_inv in Hstore as (v & Hv & _).
  unfold decodePtr in Hv. apply dbind_clean_inv in Hv as (x & Hx & _).
  change (decodeMembers true properties decodeProperty ps
            (default zeroDeploymentGroup (Properties s0)) = Ok (x, None)) in Hx.
  pose proof (decodeMembers_clean_inv _ _ _ _ _ _ _ _ Hx Hk) as Hprop.
  rewrite Hnone in Hprop. discriminate.
Qed.

(** *** The value of Type is not looked at *)

Definition eraseType (res : envelope) : envelope :=
  {| Type' := ""; Properties := Properties res; DependsOn := DependsOn res;
     Metadata := Metadata res; DeletionPolicy := DeletionPolicy res;
     UpdateReplacePolicy := UpdateReplacePolicy res; Condition := Condition res |}.

Lemma finish_eraseType (r : DeploymentGroup) c :
  finish r c = finish r (dmap eraseType c).
Proof. destruct c as [[res [e|]]|e]; reflexivity. Qed.

Lemma decodeEnvelopeField_eraseType f j (res res' : envelope) :
  eraseType res = eraseType res' ->
  dmap eraseType (decodeEnvelopeField valueInterface f j res)
  = dmap eraseType (decodeEnvelopeField valueInterface f j res').
Proof.
  intros Hres. injection Hres as HP HD HM HDP HUP HC.
  destruct f; simpl; rewrite !dmap_dbind;
    rewrite ?HP, ?HD, ?HM, ?HDP, ?HUP, ?HC;
    try (apply dbind_ext; intros a; unfold dmap, dret, eraseType; simpl;
         rewrite ?HP, ?HD, ?HM, ?HDP, ?HUP, ?HC; reflexivity).
  destruct j; simpl; unfold dbind, dmap, dret, saveError, eraseType; simpl;
    rewrite ?HP, ?HD, ?HM, ?HDP, ?HUP, ?HC; reflexivity.
Qed.

Lemma decodeMembers_eraseType ms (res res' : envelope) :
  eraseType res = eraseType res' ->
  dmap eraseType
    (decodeMembers true envelopeFields (decodeEnvelopeField valueInterface) ms res)
  = dmap eraseType
      (decodeMembers true envelopeFields (decodeEnvelopeField valueInterface) ms res').
Proof.
  revert res res'. induction ms as [|[key j] ms IH]; intros res res' Hres; simpl.
  - unfold dmap, dret. rewrite Hres. reflexivity.
  - destruct (findField envelopeFields key) as [f|].
    + apply (dmap_dbind_cong eraseType eraseType).
      * apply decodeEnvelopeField_eraseType, Hres.
      * intros a a' Ha. apply IH, Ha.
    + apply (dmap_dbind_cong id eraseType); [reflexivity|].
      intros a a' _. apply IH, Hres.
Qed.

(** X6: a Type member that holds a string has no effect on the outcome,
    wherever it stands: the decoder does not compare it with the resource
    type, and the same object without the member decodes alike. *)
Theorem Type_member_has_no_effect ms1 T ms2 (r : DeploymentGroup) :
  UnmarshalJSON valueInterface (JObj (ms1 ++ ("Type", JStr T) :: ms2)%list) r
  = UnmarshalJSON valueInterface (JObj (ms1 ++ ms2)%list) r.
Proof.
  rewrite !UnmarshalJSON_finish, !decodeMembers_app.
  rewrite finish_eraseType, (finish_eraseType r (dbind _ _)). f_equal.
  apply (dmap_dbind_cong id eraseType); [reflexivity|].
  intros res res' Hres. simpl in Hres. subst res'.
  rewrite (decodeMembers_cons_some true envelopeFields _ "Type" (JStr T) ms2 res
             E_Type eq_refl).
  simpl. rewrite !dbind_dret. apply decodeMembers_eraseType. reflexivity.
Qed.

(** X7: a Properties member given twice in a row is decoded into the same
    struct: the outcome is that of one member holding the members of both
    objects. *)
Theorem duplicate_Properties_merged ms1 ps1 ps2 ms2 (r : DeploymentGroup) :
  UnmarshalJSON valueInterface
    (JObj (ms1 ++ ("Properties", JObj ps1) :: ("Properties", JObj ps2) :: ms2)%list) r
  = UnmarshalJSON valueInterface
      (JObj (ms1 ++ ("Properties", JObj (ps1 ++ ps2)%list) :: ms2)%list) r.
Proof.
  rewrite !UnmarshalJSON_finish, !decodeMembers_app. f_equal.
  apply dbind_ext. intros res.
  rewrite !(decodeMembers_cons_some true envelopeFields _ "Properties" _ _ _
              E_Properties eq_refl).
  simpl. unfold decodePtr. simpl.
  rewrite decodeMembers_app, !dbind_assoc.
  apply dbind_ext. intros p1. rewrite !dbind_dret. simpl.
  rewrite !dbind_assoc. apply dbind_ext. intros p2. rewrite !dbind_dret.
  reflexivity.
Qed.

(** *** Encoding does not tell an empty slice or map from nil *)

Lemma marshalSlice_normSlice {T} `{GoJSON T} name (s : option (list T)) :
  marshalSlice name (normSlice s) = marshalSlice name s.
Proof. destruct s as [[|x xs]|]; reflexivity. Qed.

Lemma marshalMap_normMap name (m : option (gmap string any)) :
  marshalMap marshalAny name (normMap m) = marshalMap marshalAny name m.
Proof.
  destruct m as [m|]; [|reflexivity]. unfold normMap, emptyMap.
  destruct (Nat.eqb_spec (size m) 0) as [Hsize|_]; [|reflexivity].
  apply sortedEntries_nil in Hsize. unfold marshalMap. rewrite Hsize. reflexivity.
Qed.

(** X2: [MarshalJSON] writes the same for a value and for the value with
    its empty slices and its empty metadata map replaced by nil. *)
Theorem MarshalJSON_normalize (r : DeploymentGroup) :
  MarshalJSON marshalAny (normalize r) = MarshalJSON marshalAny r.
Proof.
  destruct r. unfold MarshalJSON, marshalProperties, normalize. simpl.
  rewrite !marshalSlice_normSlice, marshalMap_normMap. reflexivity.
Qed.


End edges.
End codedeploy_edges.

(** ** The property types: the properties themselves round-trip *)

Section subtype_roundtrip.
Context {Value : Type} `{!GoJSON Value}.
Context {MLTransform_GlueTables : Type} `{!GoJSON MLTransform_GlueTables}.
Context {UserPoolRiskConfigurationAttachment_NotifyEmailType : Type}
        `{!GoJSON UserPoolRiskConfigurationAttachment_NotifyEmailType}.
Context {any : Type}.

Abbreviation InputRecordTables' :=
  (@glue.MLTransform_InputRecordTables MLTransform_GlueTables any).
Abbreviation DeploymentController' :=
  (@ecs.Service_DeploymentController Value any).
Abbreviation NotifyConfigurationType' :=
  (@cognito.UserPoolRiskConfigurationAttachment_NotifyConfigurationType
     Value UserPoolRiskConfigurationAttachment_NotifyEmailType any).

Lemma glue_roundtrip d (v : InputRecordTables') j :
  sliceRoundtrips (glue.GlueTables v) ->
  glue.marshal v = Ok j ->
  glue.unmarshal d j (glue.zeroStruct : InputRecordTables')
  = Ok (glue.Build_MLTransform_InputRecordTables (normSlice (glue.GlueTables v))
          "" "" None None "", None).
Proof.
  intros R1 Hm. unfold glue.marshal in Hm.
  apply marshalStruct_inv in Hm as (ms & Hm & ->).
  apply marshalFields_cons_inv in Hm as (m1 & ms1 & H1 & Hm & ->).
  apply marshalFields_nil_inv in Hm as ->.
  destruct v; simpl in *. unfold glue.unmarshal, decodeStruct.
  erewrite decodeMembers_app_clean;
    [|eapply (decode_marshalSlice d glue.properties glue.decodeProperty _
                "GlueTables" glue.P_GlueTables glue.GlueTables glue.set_GlueTables);
      [reflexivity|intros; reflexivity|reflexivity|reflexivity|exact H1|exact R1]].
  reflexivity.
Qed.

Lemma ecs_roundtrip d (v : DeploymentController') j :
  ptrRoundtrips (ecs.Type' v) ->
  ecs.marshal v = Ok j ->
  ecs.unmarshal d j (ecs.zeroStruct : DeploymentController')
  = Ok (ecs.Build_Service_DeploymentController (ecs.Type' v) "" "" None None "",
        None).
Proof.
  intros R1 Hm. unfold ecs.marshal in Hm.
  apply marshalStruct_inv in Hm as (ms & Hm & ->).
  apply marshalFields_cons_inv in Hm as (m1 & ms1 & H1 & Hm & ->).
  apply marshalFields_nil_inv in Hm as ->.
  destruct v; simpl in *. unfold ecs.unmarshal, decodeStruct.
  erewrite decodeMembers_app_clean;
    [|eapply (decode_marshalPtr d ecs.properties ecs.decodeProperty
                "Type" ecs.P_Type ecs.Type' ecs.set_Type_);
      [reflexivity|intros; reflexivity|reflexivity|reflexivity|exact H1|exact R1]].
  reflexivity.
Qed.

Lemma cognito_roundtrip d (v : NotifyConfigurationType') j :
  ptrRoundtrips (cognito.BlockEmail v) ->
  ptrRoundtrips (cognito.From v) ->
  ptrRoundtrips (cognito.MfaEmail v) ->
  ptrRoundtrips (cognito.NoActionEmail v) ->
  ptrRoundtrips (cognito.ReplyTo v) ->
  ptrRoundtrips (cognito.SourceArn v) ->
  cognito.marshal v = Ok j ->
  cognito.unmarshal d j (cognito.zeroStruct : NotifyConfigurationType')
  = Ok (cognito.Build_UserPoolRiskConfigurationAttachment_NotifyConfigurationType
          (cognito.BlockEmail v) (cognito.From v) (cognito.MfaEmail v)
          (cognito.NoActionEmail v) (cognito.ReplyTo v) (cognito.SourceArn v)
          "" "" None None "", None).
Proof.
  intros R1 R2 R3 R4 R5 R6 Hm. unfold cognito.marshal in Hm.
  apply marshalStruct_inv in Hm as (ms & Hm & ->).
  apply marshalFields_cons_inv in Hm as (m1 & ms1 & H1 & Hm & ->).
  apply marshalFields_cons_inv in Hm as (m2 & ms2 & H2 & Hm & ->).
  apply marshalFields_cons_inv in Hm as (m3 & ms3 & H3 & Hm & ->).
  apply marshalFields_cons_inv in Hm as (m4 & ms4 & H4 & Hm & ->).
  apply marshalFields_cons_inv in Hm as (m5 & ms5 & H5 & Hm & ->).
  apply marshalFields_cons_inv in Hm as (m6 & ms6 & H6 & Hm & ->).
  apply marshalFields_nil_inv in Hm as ->.
  destruct v; simpl in *. unfold cognito.unmarshal, decodeStruct.
  erewrite decodeMembers_app_clean;
    [|eapply (decode_marshalPtr d cognito.properties cognito.decodeProperty
                "BlockEmail" cognito.P_BlockEmail cognito.BlockEmail
                cognito.set_BlockEmail);
      [reflexivity|intros; reflexivity|reflexivity|reflexivity|exact H1|exact R1]].
  erewrite decodeMembers_app_clean;
    [|eapply (decode_marshalPtr d cognito.properties cognito.decodeProperty
                "From" cognito.P_From cognito.From cognito.set_From);
      [reflexivity|intros; reflexivity|reflexivity|reflexivity|exact H2|exact R2]].
  erewrite decodeMembers_app_clean;
    [|eapply (decode_marshalPtr d cognito.properties cognito.decodeProperty
                "MfaEmail" cognito.P_MfaEmail cognito.MfaEmail cognito.set_MfaEmail);
      [reflexivity|intros; reflexivity|reflexivity|reflexivity|exact H3|exact R3]].
  erewrite decodeMembers_app_clean;
    [|eapply (decode_marshalPtr d cognito.properties cognito.decodeProperty
                "NoActionEmail" cognito.P_NoActionEmail cognito.NoActionEmail
                cognito.set_NoActionEmail);
      [reflexivity|intros; reflexivity|reflexivity|reflexivity|exact H4|exact R4]].
  erewrite decodeMembers_app_clean;
    [|eapply (decode_marshalPtr d cognito.properties cognito.decodeProperty
                "ReplyTo" cognito.P_ReplyTo cognito.ReplyTo cognito.set_ReplyTo);
      [reflexivity|intros; reflexivity|reflexivity|reflexivity|exact H5|exact R5]].
  erewrite decodeMembers_app_clean;
    [|eapply (decode_marshalPtr d cognito.properties cognito.decodeProperty
                "SourceArn" cognito.P_SourceArn cognito.SourceArn
                cognito.set_SourceArn);
      [reflexivity|intros; reflexivity|reflexivity|reflexivity|exact H6|exact R6]].
  reflexivity.
Qed.

(** X8: what a property type of packages glue, ecs and cognito loses in a
    round trip is only its envelope fields (and the difference between an
    empty slice and nil): when the nested values round-trip, decoding the
    encoding of a value into a zero value gives back every property of
    the value, with or without [DisallowUnknownFields]. *)
Theorem subtype_properties_roundtrip :
  (forall d (v : InputRecordTables') j,
      sliceRoundtrips (glue.GlueTables v) ->
      glue.marshal v = Ok j ->
      glue.unmarshal d j (glue.zeroStruct : InputRecordTables')
      = Ok (glue.Build_MLTransform_InputRecordTables
              (normSlice (glue.GlueTables v)) "" "" None None "", None))
  /\ (forall d (v : DeploymentController') j,
        ptrRoundtrips (ecs.Type' v) ->
        ecs.marshal v = Ok j ->
        ecs.unmarshal d j (ecs.zeroStruct : DeploymentController')
        = Ok (ecs.Build_Service_DeploymentController (ecs.Type' v)
                "" "" None None "", None))
  /\ (forall d (v : NotifyConfigurationType') j,
        ptrRoundtrips (cognito.BlockEmail v) /\ ptrRoundtrips (cognito.From v)
        /\ ptrRoundtrips (cognito.MfaEmail v)
        /\ ptrRoundtrips (cognito.NoActionEmail v)
        /\ ptrRoundtrips (cognito.ReplyTo v)
        /\ ptrRoundtrips (cognito.SourceArn v) ->
        cognito.marshal v = Ok j ->
        cognito.unmarshal d j (cognito.zeroStruct : NotifyConfigurationType')
        = Ok (cognito.Build_UserPoolRiskConfigurationAttachment_NotifyConfigurationType
                (cognito.BlockEmail v) (cognito.From v) (cognito.MfaEmail v)
                (cognito.NoActionEmail v) (cognito.ReplyTo v) (cognito.SourceArn v)
                "" "" None None "", None)).
Proof.
  split; [|split].
  - intros d v j. apply glue_roundtrip.
  - intros d v j. apply ecs_roundtrip.
  - intros d v j (R1 & R2 & R3 & R4 & R5 & R6).
    apply cognito_roundtrip; assumption.
Qed.

End subtype_roundtrip.

(** * Package cmdutils

    The helpers of [pkg/ctl/cmdutils/cmdutils.go] that compute with the
    command, its arguments and strings.  An error is its message; the
    handlers registered on a command are functions on a state [World]
    that stands for everything a handler can read or write. *)

Module cmdutils.

(** ** The Go library functions the helpers call *)

(** [strings.Join]. *)
Fixpoint Join (elems : list string) (sep : string) : string :=
  match elems with
  | [] => ""
  | [x] => x
  | x :: rest => x ++ sep ++ Join rest sep
  end.

(** The white space of [unicode.IsSpace], each rune in its UTF-8
    encoding: tab, line feed, vertical tab, form feed, carriage return,
    space, U+0085, U+00A0, U+1680, U+2000 to U+200A, U+2028, U+2029,
    U+202F, U+205F and U+3000. *)
Definition whiteSpace : list (list ascii) :=
  List.map (List.map ascii_of_N)
    [ [9]; [10]; [11]; [12]; [13]; [32]; [194; 133]; [194; 160];
      [225; 154; 128];
      [226; 128; 128]; [226; 128; 129]; [226; 128; 130]; [226; 128; 131];
      [226; 128; 132]; [226; 128; 133]; [226; 128; 134]; [226; 128; 135];
      [226; 128; 136]; [226; 128; 137]; [226; 128; 138];
      [226; 128; 168]; [226; 128; 169]; [226; 128; 175];
      [226; 129; 159]; [227; 128; 128] ]%N.

(** [stripPrefix w s] is what follows [w] in [s], when [s] begins with
    [w]. *)
Fixpoint stripPrefix (w s : list ascii) : option (list ascii) :=
  match w with
  | [] => Some s
  | c :: w' =>
      match s with
      | [] => None
      | c' :: s' => if Ascii.eqb c c' then stripPrefix w' s' else None
      end
  end.

Fixpoint firstSome {A B} (f : A -> option B) (l : list A) : option B :=
  match l with
  | [] => None
  | x :: l' =>
      match f x with
      | Some b => Some b
      | None => firstSome f l'
      end
  end.

(** The bytes after a leading white space rune, and, on the reversed
    bytes, the bytes before a trailing one. *)
Definition dropSpace (s : list ascii) : option (list ascii) :=
  firstSome (fun w => stripPrefix w s) whiteSpace.

Definition dropSpaceRev (s : list ascii) : option (list ascii) :=
  firstSome (fun w => stripPrefix (List.rev w) s) whiteSpace.

(** Drop runes while there is one to drop; [n] bounds the number of
    rounds, and the length of the bytes is enough. *)
Fixpoint trimWith (drop : list ascii -> option (list ascii)) (n : nat)
    (s : list ascii) : list ascii :=
  match n with
  | O => s
  | S n' =>
      match drop s with
      | Some rest => trimWith drop n' rest
      | None => s
      end
  end.

Definition trimLeft (s : list ascii) : list ascii :=
  trimWith dropSpace (length s) s.

Definition trimRight (s : list ascii) : list ascii :=
  List.rev (trimWith dropSpaceRev (length s) (List.rev s)).

(** [strings.TrimSpace]: the string without its leading and trailing
    white space. *)
Definition TrimSpace (s : string) : string :=
  string_of_list_ascii (trimRight (trimLeft (list_ascii_of_string s))).

(** ** The helpers *)

Section commands.
(** [CommandRef] stands for a [*cobra.Command] handed to a handler. *)
Context {CommandRef World : Type}.

Definition handler : Type := CommandRef -> list string -> World -> World.

(** The fields of [cobra.Command] that the helpers read or write. *)
Record Command : Type := {
  Use : string;
  PreRun : option handler
}.

(** [AddPreRun] chains [cmd.PreRun] handlers, as cobra only allows one,
    so we don't accidentally override one we registered earlier.  The
    command after the assignment is the result. *)
Definition AddPreRun (cmd : Command) (newFn : handler) : Command :=
  let currentFn := PreRun cmd in
  {| Use := Use cmd;
     PreRun := Some (fun cmd' args w =>
                       let w := match currentFn with
                                | Some fn => fn cmd' args w
                                | None => w
                                end in
                       newFn cmd' args w) |}.

(** What cobra does with the field: it calls the handler if there is
    one. *)
Definition runPreRun (cmd : Command) (ref : CommandRef) (args : list string)
    (w : World) : World :=
  match PreRun cmd with
  | Some fn => fn ref args w
  | None => w
  end.

End commands.

(** A call either returns or ends the process with an exit code, after
    logging a critical message. *)
Inductive exits (A : Type) : Type :=
| Returns (a : A)
| Exits (code : nat) (critical : string).
Arguments Returns {A} a.
Arguments Exits {A} code critical.

(** [GetNameArg] tests to ensure there is only 1 name argument. *)
Definition GetNameArg (args : list string) : exits string :=
  if Nat.ltb 1 (length args) then
    Exits 1 "only one argument is allowed to be used as a name"
  else
    match args with
    | [a] => Returns (TrimSpace a)
    | _ => Returns ""
    end.

(** The fields of [api.ProviderConfig] that the helpers read or write. *)
Record ProviderConfig : Type := {
  Region : string;
  ProfileName : string;
  ProfileSourceIsEnvVar : bool;
  CloudFormationRoleARN : string;
  CloudFormationDisableRollback : bool
}.

(** [ErrUnsupportedRegion] is a common error message;
    [supportedRegions] is what [api.SupportedRegions()] returns. *)
Definition ErrUnsupportedRegion (supportedRegions : list string)
    (provider : ProviderConfig) : string :=
  "--region=" ++ Region provider ++ " is not supported - use one of: "
  ++ Join supportedRegions ", ".

End cmdutils.

(** ** Properties of the helpers of cmdutils *)

Module cmdutils_facts.
Import cmdutils.

Lemma string_app_cons x (a b : string) : String x a ++ b = String x (a ++ b).
Proof. reflexivity. Qed.

Lemma string_app_nil_r (a : string) : a ++ "" = a.
Proof.
  induction a as [|x a IH]; [reflexivity|].
  rewrite string_app_cons, IH. reflexivity.
Qed.

Lemma string_app_assoc (a b c : string) : (a ++ b) ++ c = a ++ (b ++ c).
Proof.
  induction a as [|x a IH]; [reflexivity|].
  rewrite !string_app_cons, IH. reflexivity.
Qed.

Lemma string_of_list_ascii_app (a b : list ascii) :
  string_of_list_ascii (a ++ b)%list
  = string_of_list_ascii a ++ string_of_list_ascii b.
Proof.
  induction a as [|x a IH]; [reflexivity|].
  simpl. rewrite string_app_cons, IH. reflexivity.
Qed.

Lemma stripPrefix_spec w s t : stripPrefix w s = Some t <-> s = (w ++ t)%list.
Proof.
  revert s. induction w as [|c w IH]; intros s; simpl.
  - split; congruence.
  - destruct s as [|c' s]; [split; discriminate|].
    destruct (Ascii.eqb_spec c c') as [->|Hne].
    + rewrite IH. split; congruence.
    + split; [discriminate|]. intros [= -> _]. congruence.
Qed.

Lemma firstSome_none {A B} (f : A -> option B) l x :
  firstSome f l = None -> x ∈ l -> f x = None.
Proof.
  induction l as [|y l IH]; simpl; intros Hnone Hin; [inversion Hin|].
  destruct (f y) eqn:Hy; [discriminate|].
  apply elem_of_cons in Hin as [->|Hin]; [exact Hy|exact (IH Hnone Hin)].
Qed.

Lemma firstSome_some {A B} (f : A -> option B) l b :
  firstSome f l = Some b -> exists x, x ∈ l /\ f x = Some b.
Proof.
  induction l as [|y l IH]; simpl; [discriminate|].
  destruct (f y) eqn:Hy.
  - intros [= ->]. exists y. split; [apply elem_of_cons; left; reflexivity|exact Hy].
  - intros Hrest. destruct (IH Hrest) as (x & Hin & Hx).
    exists x. split; [apply elem_of_cons; right; exact Hin|exact Hx].
Qed.

Lemma whiteSpace_nonempty w : w ∈ whiteSpace -> w <> [].
Proof.
  intros Hin ->. apply list_elem_of_In in Hin.
  assert (Hall : forallb (fun w => negb (Nat.eqb (length w) 0)) whiteSpace = true)
    by reflexivity.
  rewrite forallb_forall in Hall. specialize (Hall [] Hin). discriminate.
Qed.

Lemma dropSpace_some s r :
  dropSpace s = Some r -> exists w, w <> [] /\ s = (w ++ r)%list.
Proof.
  intros Hdrop. apply firstSome_some in Hdrop as (w & Hin & Hw).
  apply stripPrefix_spec in Hw. exists w. split; [exact (whiteSpace_nonempty w Hin)|exact Hw].
Qed.

Lemma dropSpaceRev_some s r :
  dropSpaceRev s = Some r -> exists w, w <> [] /\ s = (w ++ r)%list.
Proof.
  intros Hdrop. apply firstSome_some in Hdrop as (w & Hin & Hw).
  apply stripPrefix_spec in Hw. exists (List.rev w). split; [|exact Hw].
  intros Hnil. apply (whiteSpace_nonempty w Hin).
  rewrite <- (rev_involutive w), Hnil. reflexivity.
Qed.

(** Trimming stops only when nothing is left to drop, and it returns the
    end of what it was given. *)
Lemma trimWith_spec (drop : list ascii -> option (list ascii)) :
  (forall s r, drop s = Some r -> exists w, w <> [] /\ s = (w ++ r)%list) ->
  forall n s, length s <= n ->
    drop (trimWith drop n s) = None
    /\ exists pre, s = (pre ++ trimWith drop n s)%list.
Proof.
  intros Hdrop. induction n as [|n IH]; intros s Hlen; simpl.
  - destruct s; [|simpl in Hlen; lia]. split; [|exists []; reflexivity].
    destruct (drop []) as [r|] eqn:Hnil; [|reflexivity].
    destruct (Hdrop _ _ Hnil) as (w & Hw & Heq).
    destruct w; [congruence|discriminate].
  - destruct (drop s) as [r|] eqn:Hs; [|split; [exact Hs|exists []; reflexivity]].
    destruct (Hdrop _ _ Hs) as (w & Hw & ->).
    destruct (IH r) as (Hnone & pre & Hpre).
    + rewrite length_app in Hlen. destruct w; [congruence|simpl in Hlen; lia].
    + split; [exact Hnone|]. exists (w ++ pre)%list.
      rewrite <- app_assoc, <- Hpre. reflexivity.
Qed.

Lemma TrimSpace_spec (a : string) :
  exists pre post,
    a = pre ++ TrimSpace a ++ post
    /\ forall w t, w ∈ whiteSpace ->
         list_ascii_of_string (TrimSpace a) <> (w ++ t)%list
         /\ list_ascii_of_string (TrimSpace a) <> (t ++ w)%list.
Proof.
  unfold TrimSpace, trimRight, trimLeft.
  set (l := list_ascii_of_string a).
  destruct (trimWith_spec dropSpace dropSpace_some (length l) l (le_n _))
    as (Hleft & pre & Hpre).
  set (m := trimWith dropSpace (length l) l) in *.
  destruct (trimWith_spec dropSpaceRev dropSpaceRev_some (length m) (List.rev m))
    as (Hright & post & Hpost); [rewrite length_rev; apply le_n|].
  set (r := trimWith dropSpaceRev (length m) (List.rev m)) in *.
  assert (Hm : m = (List.rev r ++ List.rev post)%list).
  { rewrite <- rev_app_distr, <- Hpost, rev_involutive. reflexivity. }
  exists (string_of_list_ascii pre), (string_of_list_ascii (List.rev post)). split.
  - rewrite <- !string_of_list_ascii_app, <- Hm, <- Hpre.
    symmetry. apply string_of_list_ascii_of_string.
  - intros w t Hin. rewrite list_ascii_of_string_of_list_ascii. split; intros Heq.
    + assert (Hstrip : stripPrefix w m = Some (t ++ List.rev post)%list).
      { apply stripPrefix_spec. rewrite Hm, Heq, <- app_assoc. reflexivity. }
      rewrite (firstSome_none _ _ w Hleft Hin) in Hstrip. discriminate.
    + assert (Hstrip : stripPrefix (List.rev w) r = Some (List.rev t)).
      { apply stripPrefix_spec. rewrite <- rev_app_distr, <- Heq, rev_involutive.
        reflexivity. }
      rewrite (firstSome_none _ _ w Hright Hin) in Hstrip. discriminate.
Qed.

(** X10: [GetNameArg] ends the process with code 1 when there is more
    than one argument, returns the empty name when there is none, and for
    one argument returns a part of it that neither begins nor ends with
    a white space rune. *)
Theorem GetNameArg_name (args : list string) :
  (1 < length args ->
   GetNameArg args = Exits 1 "only one argument is allowed to be used as a name")
  /\ (args = [] -> GetNameArg args = Returns "")
  /\ (forall a, args = [a] ->
        exists name pre post,
          GetNameArg args = Returns name
          /\ a = pre ++ name ++ post
          /\ forall w t, w ∈ whiteSpace ->
               list_ascii_of_string name <> (w ++ t)%list
               /\ list_ascii_of_string name <> (t ++ w)%list).
Proof.
  split; [|split].
  - intros Hlen. unfold GetNameArg. apply Nat.ltb_lt in Hlen. rewrite Hlen.
    reflexivity.
  - intros ->. reflexivity.
  - intros a ->. destruct (TrimSpace_spec a) as (pre & post & Hpart & Hspace).
    exists (TrimSpace a), pre, post. split; [reflexivity|]. split; assumption.
Qed.

(** The blanks of ASCII: tab, line feed, vertical tab, form feed,
    carriage return and space. *)
Definition asciiBlank (c : ascii) : Prop :=
  c ∈ List.map ascii_of_N [9; 10; 11; 12; 13; 32]%N.

Lemma dropSpace_blank c rest : asciiBlank c -> dropSpace (c :: rest) = Some rest.
Proof.
  unfold asciiBlank. simpl. intros Hc.
  repeat (apply elem_of_cons in Hc as [->|Hc]; [reflexivity|]).
  inversion Hc.
Qed.

Lemma trimWith_blanks n (s : list ascii) :
  length s <= n -> Forall asciiBlank s -> trimWith dropSpace n s = [].
Proof.
  revert s. induction n as [|n IH]; intros s Hlen Hall; simpl.
  - destruct s; [reflexivity|simpl in Hlen; lia].
  - destruct Hall as [|c s Hc Hs]; [reflexivity|].
    rewrite (dropSpace_blank c s Hc). apply IH; [simpl in Hlen; lia|exact Hs].
Qed.

(** X12: one argument made only of ASCII blanks gives the empty name, as
    no argument does. *)
Theorem GetNameArg_blank (a : string) :
  Forall asciiBlank (list_ascii_of_string a) ->
  GetNameArg [a] = GetNameArg [].
Proof.
  intros Hall. unfold GetNameArg. simpl. f_equal.
  unfold TrimSpace, trimLeft. rewrite (trimWith_blanks _ _ (le_n _) Hall).
  reflexivity.
Qed.

Lemma Join_contains (elems : list string) sep x :
  x ∈ elems -> exists pre post, Join elems sep = pre ++ x ++ post.
Proof.
  induction elems as [|y elems IH]; intros Hin; [inversion Hin|].
  apply elem_of_cons in Hin as [->|Hin].
  - destruct elems as [|z elems].
    + exists "", "". change (y = y ++ ""). rewrite string_app_nil_r. reflexivity.
    + exists "", (sep ++ Join (z :: elems) sep). reflexivity.
  - destruct (IH Hin) as (pre & post & Hjoin).
    destruct elems as [|z elems]; [inversion Hin|].
    exists (y ++ sep ++ pre), post.
    change (Join (y :: z :: elems) sep) with (y ++ sep ++ Join (z :: elems) sep).
    rewrite Hjoin, !string_app_assoc. reflexivity.
Qed.

(** X11: the message of [ErrUnsupportedRegion] names the region that was
    asked for and lists every supported region. *)
Theorem ErrUnsupportedRegion_lists_regions supportedRegions provider region :
  region ∈ supportedRegions ->
  exists pre post,
    ErrUnsupportedRegion supportedRegions provider
    = "--region=" ++ Region provider ++ " is not supported - use one of: "
      ++ pre ++ region ++ post.
Proof.
  intros Hin. destruct (Join_contains supportedRegions ", " region Hin)
    as (pre & post & Hjoin).
  exists pre, post. unfold ErrUnsupportedRegion. rewrite Hjoin. reflexivity.
Qed.

Section chain.
Context {CommandRef World : Type}.

Lemma runPreRun_AddPreRun (cmd : @Command CommandRef World) fn ref args w :
  runPreRun (AddPreRun cmd fn) ref args w = fn ref args (runPreRun cmd ref args w).
Proof. unfold runPreRun, AddPreRun. simpl. destruct (PreRun cmd); reflexivity. Qed.

(** X9: after any number of [AddPreRun] calls, running the handler of the
    command runs the handler it had before, if any, and then every added
    handler, in the order of the calls, each on the state the one before
    it left; the command's [Use] is as it was. *)
Theorem AddPreRun_chain (fns : list (@handler CommandRef World))
    (cmd : @Command CommandRef World) ref args w :
  runPreRun (fold_left AddPreRun fns cmd) ref args w
  = fold_left (fun w fn => fn ref args w) fns (runPreRun cmd ref args w)
  /\ Use (fold_left AddPreRun fns cmd) = Use cmd.
Proof.
  revert cmd w. induction fns as [|fn fns IH]; intros cmd w; simpl.
  - split; reflexivity.
  - destruct (IH (AddPreRun cmd fn) w) as [Hrun Huse].
    rewrite Hrun, runPreRun_AddPreRun. split; [reflexivity|exact Huse].
Qed.

End chain.

(** X10 at an argument wrapped in blanks, a tab and a no-break space. *)
Lemma GetNameArg_witness :
  exists name pre post,
    GetNameArg ["  my-cluster " ++ String "009" (String "194" (String "160" ""))]
    = Returns name
    /\ "  my-cluster " ++ String "009" (String "194" (String "160" ""))
       = pre ++ name ++ post
    /\ forall w t, w ∈ whiteSpace ->
         list_ascii_of_string name <> (w ++ t)%list
         /\ list_ascii_of_string name <> (t ++ w)%list.
Proof.
  destruct (GetNameArg_name
              ["  my-cluster " ++ String "009" (String "194" (String "160" ""))])
    as (_ & _ & Hone).
  apply (Hone _ eq_refl).
Defined.

Example GetNameArg_trimmed :
  GetNameArg ["  my-cluster " ++ String "009" (String "194" (String "160" ""))]
  = Returns "my-cluster".
Proof. reflexivity. Qed.

Lemma GetNameArg_blank_witness :
  GetNameArg [String "009" "  "] = GetNameArg [].
Proof.
  apply (GetNameArg_blank (String "009" "  ")).
  repeat constructor; unfold asciiBlank; simpl; rewrite list_elem_of_In; simpl; tauto.
Defined.

Lemma ErrUnsupportedRegion_witness :
  exists pre post,
    ErrUnsupportedRegion ["us-east-1"; "eu-west-1"]
      (Build_ProviderConfig "mars-1" "" false "" false)
    = "--region=" ++ "mars-1" ++ " is not supported - use one of: "
      ++ pre ++ "eu-west-1" ++ post.
Proof.
  apply (ErrUnsupportedRegion_lists_regions ["us-east-1"; "eu-west-1"]
           (Build_ProviderConfig "mars-1" "" false "" false) "eu-west-1").
  apply elem_of_cons. right. apply elem_of_cons. left. reflexivity.
Defined.

End cmdutils_facts.

(** * The further properties at concrete inputs *)

Module more_checks.
Import codedeploy example checks.

(** X1 at an array. *)
Lemma UnmarshalJSON_outcomes_witness :
  UnmarshalJSON (JArr [JStr "x"]) populated
  = Returned populated (Some (UnmarshalTypeError "array" "struct")).
Proof.
  destruct (codedeploy_edges.UnmarshalJSON_outcomes valueInterface
              (JArr [JStr "x"]) populated) as (_ & _ & Hkind).
  apply Hkind; discriminate.
Defined.



(** X4 at a null Metadata spelled in lower case. *)
Lemma leading_null_member_witness :
  UnmarshalJSON (JObj [("metadata", JNull); ("Condition", JStr "IsProd")]) zeroValue
  = UnmarshalJSON (JObj [("Condition", JStr "IsProd")]) zeroValue.
Proof.
  apply (codedeploy_edges.leading_null_member_ignored valueInterface "metadata"
           E_Metadata [("Condition", JStr "IsProd")] zeroValue).
  vm_compute. reflexivity.
Defined.

(** X5 at a Properties object that spells an envelope field by the name
    of its Go field. *)
Lemma unknown_property_witness :
  exists e,
    UnmarshalJSON
      (JObj [("Type", JStr resourceType);
             ("Properties", JObj [("AWSCloudFormationCondition", JStr "IsProd")])])
      populated
    = Returned populated (Some e).
Proof.
  apply (codedeploy_edges.unknown_property_rejected valueInterface _ "Properties"
           [("AWSCloudFormationCondition", JStr "IsProd")]
           "AWSCloudFormationCondition" (JStr "IsProd")).
  - apply elem_of_cons. right. apply elem_of_cons. left. reflexivity.
  - vm_compute. reflexivity.
  - apply elem_of_cons. left. reflexivity.
  - vm_compute. reflexivity.
Defined.

(** X8 at a DeploymentController with envelope fields set. *)
Lemma subtype_properties_witness :
  ecs.unmarshal true (JObj [("Type", JStr "ECS")]) (ecs.zeroStruct : Nested)
  = Ok (controller "ECS", None).
Proof.
  destruct (subtype_properties_roundtrip
              (Value := Value) (MLTransform_GlueTables := string)
              (UserPoolRiskConfigurationAttachment_NotifyEmailType := string)
              (any := any)) as (_ & Hecs & _).
  apply (Hecs true (ecs.Build_Service_DeploymentController (Some "ECS") "Retain" ""
                      (Some ["A"]) None "IsProd")).
  - intros x [= <-]. split; [intros j [= <-]; reflexivity|discriminate].
  - reflexivity.
Defined.

End more_checks.
